(** * Access-control gate of the DeepBug site ([src/firebase/security.ts])

    A shallow embedding of the login-attempt throttle, the credential
    validators, the two login procedures and the ownership check, with the
    Firebase SDK calls, the clock and the console treated as an explicit
    environment. *)

From Stdlib Require Import ZArith NArith Lia Bool.
From Stdlib Require Import Ascii String.
From stdpp Require Import gmap list.

Local Open Scope Z_scope.

(** ** JavaScript strings

    A JavaScript string is a sequence of UTF-16 code units; [length],
    [includes], concatenation and a regular expression without the [u] flag
    all work on code units. *)

Abbreviation jsstring := (list N).

(** A string literal of the source, all of whose characters are ASCII. *)
Definition js (s : string) : jsstring :=
  List.map N_of_ascii (list_ascii_of_string s).

(** [s.length] *)
Definition js_length (s : jsstring) : Z := Z.of_nat (length s).

Fixpoint starts_with (s sub : jsstring) : bool :=
  match sub, s with
  | [], _ => true
  | _ :: _, [] => false
  | c :: sub', d :: s' => (c =? d)%N && starts_with s' sub'
  end.

(** [s.includes(sub)] *)
Fixpoint includes (s sub : jsstring) : bool :=
  starts_with s sub ||
  match s with
  | [] => false
  | _ :: s' => includes s' sub
  end.

(** [n.toString(36)] for an integral number [n]. *)
Definition digit36 (d : N) : N :=
  if (d <? 10)%N then (48 + d)%N else (87 + d)%N.

Fixpoint digits36 (fuel : nat) (n : N) (acc : jsstring) : jsstring :=
  match fuel with
  | O => acc
  | S fuel' =>
      let acc' := digit36 (n mod 36) :: acc in
      if (n / 36 =? 0)%N then acc' else digits36 fuel' (n / 36) acc'
  end.

Definition toString36 (n : Z) : jsstring :=
  match n with
  | Z0 => [48%N]
  | Zpos p => digits36 (N.size_nat (Npos p)) (Npos p) []
  | Zneg p => 45%N :: digits36 (N.size_nat (Npos p)) (Npos p) []
  end.

(** ** Regular expressions

    The fragment used by [emailRegex]: character classes, concatenation and
    repetition, matched against the whole input (the pattern is anchored by
    [^] and [$], and carries no flag). Matching is by derivatives. *)

Inductive regex : Type :=
| Void
| Eps
| Class (p : N -> bool)
| Cat (r s : regex)
| Alt (r s : regex)
| Star (r : regex).

Definition Plus (r : regex) : regex := Cat r (Star r).

Fixpoint nullable (r : regex) : bool :=
  match r with
  | Void => false
  | Eps => true
  | Class _ => false
  | Cat r s => nullable r && nullable s
  | Alt r s => nullable r || nullable s
  | Star _ => true
  end.

Fixpoint deriv (c : N) (r : regex) : regex :=
  match r with
  | Void => Void
  | Eps => Void
  | Class p => if p c then Eps else Void
  | Cat r s =>
      if nullable r then Alt (Cat (deriv c r) s) (deriv c s)
      else Cat (deriv c r) s
  | Alt r s => Alt (deriv c r) (deriv c s)
  | Star r => Cat (deriv c r) (Star r)
  end.

(** [/^r$/.test(s)] *)
Fixpoint regex_test (r : regex) (s : jsstring) : bool :=
  match s with
  | [] => nullable r
  | c :: s' => regex_test (deriv c r) s'
  end.

(** The class [\s]: WhiteSpace and LineTerminator code points. *)
Definition is_space (c : N) : bool :=
  ((9 <=? c) && (c <=? 13) || (c =? 32) || (c =? 160) || (c =? 5760)
   || (8192 <=? c) && (c <=? 8202) || (c =? 8232) || (c =? 8233)
   || (c =? 8239) || (c =? 8287) || (c =? 12288) || (c =? 65279))%N.

(** [[^\s@]] *)
Definition not_space_at (c : N) : bool := negb (is_space c || (c =? 64)%N).

Definition lit (c : N) : regex := Class (N.eqb c).

(** [/^[^\s@]+@[^\s@]+\.[^\s@]+$/] *)
Definition emailRegex : regex :=
  Cat (Plus (Class not_space_at))
      (Cat (lit 64)
           (Cat (Plus (Class not_space_at))
                (Cat (lit 46) (Plus (Class not_space_at))))).

(** ** Credential validators *)

Definition validateEmail (email : jsstring) : bool :=
  regex_test emailRegex email && (js_length email <=? 100).

Definition validatePassword (password : jsstring) : bool :=
  (6 <=? js_length password) && (js_length password <=? 128).

(** ** The environment: clock, identity provider, document store

    [Date.now()], [signInWithEmailAndPassword], [signOut], [getDoc] and
    [console.error] are the only effects of the module. The clock and the
    replies of the two services are oracles; the store contents, the
    signed-in user, the attempt table and the history of external calls are
    state. *)

(** A Firestore field value, as far as [===] can observe it. *)
Inductive Value : Type :=
| VUndefined
| VNull
| VBool (b : bool)
| VNumber (n : Z)
| VString (s : jsstring)
| VObject (ref : nat).

(** [DocumentData]: the fields of a stored document. *)
Abbreviation DocumentData := (gmap jsstring Value).

(** [data.field] *)
Definition field (data : DocumentData) (name : jsstring) : Value :=
  default VUndefined (data !! name).

(** [v === s] for a string [s] *)
Definition strict_eq_string (v : Value) (s : jsstring) : bool :=
  match v with
  | VString t => bool_decide (t = s)
  | _ => false
  end.

(** The value held in [loginAttempts] for one identifier. *)
(** [count] starts at 0 and is only ever incremented. *)
Record Attempt : Type := { count : N; lastAttempt : Z }.

Inductive Event : Type :=
| SignIn (email password : jsstring)
| SignOut
| GetDoc (collection id : jsstring)
| ConsoleError.

Inductive SignInReply : Type :=
| Rejected (code : jsstring)
| Credential (uid : jsstring).

Record Env : Type := {
  (** the value returned by the [n]-th read of [Date.now()] *)
  clock : nat -> Z;
  (** the reply to a sign-in issued after [n] earlier events *)
  identityProvider : nat -> jsstring -> jsstring -> SignInReply;
  (** [Some code]: the store lookup issued after [n] earlier events rejects *)
  lookupError : nat -> option jsstring;
  (** [Some code]: the sign-out issued after [n] earlier events rejects *)
  signOutError : nat -> option jsstring;
}.

Record World : Type := {
  loginAttempts : gmap jsstring Attempt;
  firestore : gmap (jsstring * jsstring) DocumentData;
  currentUser : option jsstring;
  reads : nat;
  (** external calls and console output, most recent first *)
  trace : list Event;
}.

Definition with_attempts (f : gmap jsstring Attempt -> gmap jsstring Attempt)
    (w : World) : World :=
  {| loginAttempts := f (loginAttempts w); firestore := firestore w;
     currentUser := currentUser w; reads := reads w; trace := trace w |}.

Definition with_user (u : option jsstring) (w : World) : World :=
  {| loginAttempts := loginAttempts w; firestore := firestore w;
     currentUser := u; reads := reads w; trace := trace w |}.

Definition tick (w : World) : World :=
  {| loginAttempts := loginAttempts w; firestore := firestore w;
     currentUser := currentUser w; reads := S (reads w); trace := trace w |}.

Definition log (e : Event) (w : World) : World :=
  {| loginAttempts := loginAttempts w; firestore := firestore w;
     currentUser := currentUser w; reads := reads w; trace := e :: trace w |}.

(** The errors the module throws, one per message of the source, and the
    rejections of the SDK, which carry a [code]. *)
Inductive Error : Type :=
| RateLimited
| InvalidEmail
| InvalidPassword
| Unauthorized
| InvalidCredentials
| LoginFailed
| SdkError (code : jsstring).

(** [error.code] *)
Definition error_code (e : Error) : Value :=
  match e with
  | SdkError code => VString code
  | _ => VUndefined
  end.

Inductive Outcome (A : Type) : Type :=
| Return (a : A)
| Throw (e : Error).
Arguments Return {A} a.
Arguments Throw {A} e.

(** A computation reads the environment, transforms the world and either
    returns or throws. *)
Definition M (A : Type) : Type := Env -> World -> Outcome A * World.

Definition ret {A} (a : A) : M A := fun _ w => (Return a, w).

Definition throw {A} (e : Error) : M A := fun _ w => (Throw e, w).

Definition bind {A B} (m : M A) (k : A -> M B) : M B :=
  fun env w =>
    match m env w with
    | (Return a, w') => k a env w'
    | (Throw e, w') => (Throw e, w')
    end.

(** [try { body } catch (error) { handler }] *)
Definition try_catch {A} (body : M A) (handler : Error -> M A) : M A :=
  fun env w =>
    match body env w with
    | (Return a, w') => (Return a, w')
    | (Throw e, w') => handler e env w'
    end.

Definition gets {A} (f : World -> A) : M A := fun _ w => (Return (f w), w).

Definition modify (f : World -> World) : M unit := fun _ w => (Return tt, f w).

Declare Scope js_scope.
Delimit Scope js_scope with js_m.
Notation "x <- m ;; k" := (bind m (fun x => k))
  (at level 100, m at next level, right associativity) : js_scope.
Notation "m ;;; k" := (bind m (fun _ => k))
  (at level 100, right associativity) : js_scope.
Local Open Scope js_scope.

(** [Date.now()] *)
Definition Date_now : M Z :=
  fun env w => (Return (clock env (reads w)), tick w).

(** [signInWithEmailAndPassword(auth, email, password)]; the credential is
    represented by [user.uid]. *)
Definition signInWithEmailAndPassword (email password : jsstring) : M jsstring :=
  fun env w =>
    match identityProvider env (length (trace w)) email password with
    | Credential uid =>
        (Return uid, with_user (Some uid) (log (SignIn email password) w))
    | Rejected code => (Throw (SdkError code), log (SignIn email password) w)
    end.

(** [signOut(auth)]: a sign-out that completes leaves no user signed in; one
    that rejects leaves the session as it was. *)
Definition signOut : M unit :=
  fun env w =>
    match signOutError env (length (trace w)) with
    | Some code => (Throw (SdkError code), log SignOut w)
    | None => (Return tt, with_user None (log SignOut w))
    end.

(** [getDoc(doc(db, collection, id))]: the snapshot is [None] when the
    document does not exist, its data otherwise. *)
Definition getDoc (collection id : jsstring) : M (option DocumentData) :=
  fun env w =>
    match lookupError env (length (trace w)) with
    | Some code => (Throw (SdkError code), log (GetDoc collection id) w)
    | None => (Return (firestore w !! (collection, id)), log (GetDoc collection id) w)
    end.

(** [console.error(...)] *)
Definition console_error : M unit := modify (log ConsoleError).

(** ** Attempt throttle *)

Definition MAX_LOGIN_ATTEMPTS : N := 5.
Definition LOCKOUT_DURATION : Z := 15 * 60 * 1000.

Definition isRateLimited (identifier : jsstring) : M bool :=
  attempt <- gets (fun w => loginAttempts w !! identifier) ;;
  match attempt with
  | None => ret false
  | Some attempt =>
      now <- Date_now ;;
      if LOCKOUT_DURATION <? now - lastAttempt attempt then
        modify (with_attempts (delete identifier)) ;;;
        ret false
      else ret (MAX_LOGIN_ATTEMPTS <=? count attempt)%N
  end.

Definition recordLoginAttempt (identifier : jsstring) (success : bool) : M unit :=
  now <- Date_now ;;
  stored <- gets (fun w => loginAttempts w !! identifier) ;;
  let attempt := default {| count := 0; lastAttempt := now |} stored in
  if success then modify (with_attempts (delete identifier))
  else
    modify (with_attempts
              (insert identifier {| count := (count attempt + 1)%N; lastAttempt := now |})).

Definition getClientIdentifier : M jsstring :=
  now <- Date_now ;;
  ret (js "client_" ++ toString36 now).

(** ** Ownership and role resolver *)

Definition isAdmin (uid : jsstring) : M bool :=
  try_catch
    (adminDoc <- getDoc (js "admins") uid ;;
     ret (bool_decide (is_Some adminDoc)))
    (fun _ => console_error ;;; ret false).

Definition verifyResourceOwnership (userId resourceId collection : jsstring) : M bool :=
  try_catch
    (resourceDoc <- getDoc collection resourceId ;;
     match resourceDoc with
     | None => ret false
     | Some resourceData =>
         if strict_eq_string (field resourceData (js "authorId")) userId
         then ret true
         else isAdmin userId
     end)
    (fun _ => console_error ;;; ret false).

(** ** Login procedures *)

Definition authenticateAdmin (email password : jsstring) : M bool :=
  identifier <- getClientIdentifier ;;
  limited <- isRateLimited identifier ;;
  if limited then throw RateLimited
  else
    try_catch
      (if negb (includes email (js "admin")) && negb (includes email (js "deepbug"))
       then recordLoginAttempt identifier false ;;; throw Unauthorized
       else
         uid <- signInWithEmailAndPassword email password ;;
         isUserAdmin <- isAdmin uid ;;
         if negb isUserAdmin then
           signOut ;;;
           recordLoginAttempt identifier false ;;;
           throw Unauthorized
         else
           recordLoginAttempt identifier true ;;;
           ret true)
      (fun error => recordLoginAttempt identifier false ;;; throw error).

Definition authenticateUser (email password : jsstring) : M jsstring :=
  identifier <- getClientIdentifier ;;
  limited <- isRateLimited identifier ;;
  if limited then throw RateLimited
  else if negb (validateEmail email) then throw InvalidEmail
  else if negb (validatePassword password) then throw InvalidPassword
  else
    try_catch
      (uid <- signInWithEmailAndPassword email password ;;
       recordLoginAttempt identifier true ;;;
       ret uid)
      (fun error =>
         recordLoginAttempt identifier false ;;;
         if strict_eq_string (error_code error) (js "auth/user-not-found")
            || strict_eq_string (error_code error) (js "auth/wrong-password")
         then throw InvalidCredentials
         else throw LoginFailed).

(** ** Vocabulary of the statements *)

Definition result {A} (m : M A) (env : Env) (w : World) : Outcome A := fst (m env w).

Definition after {A} (m : M A) (env : Env) (w : World) : World := snd (m env w).

(** [failureCount] of an identifier: the count of its record, 0 when it has none. *)
Definition failureCount (w : World) (identifier : jsstring) : N :=
  from_option count 0%N (loginAttempts w !! identifier).

(** [n] consecutive failed outcomes recorded for one identifier. *)
Fixpoint record_failures (n : nat) (identifier : jsstring) : M unit :=
  match n with
  | O => ret tt
  | S n' => recordLoginAttempt identifier false ;;; record_failures n' identifier
  end.

(** The first two steps shared by the login procedures: draw the client
    identifier and ask the throttle about it. *)
Definition throttle_check : M (jsstring * bool) :=
  identifier <- getClientIdentifier ;;
  limited <- isRateLimited identifier ;;
  ret (identifier, limited).

(** Membership of the privileged-identity set: a document under [admins]. *)
Definition privileged (w : World) (uid : jsstring) : bool :=
  bool_decide (is_Some (firestore w !! (js "admins", uid))).

(** The resource exists and its [authorId] is the principal's id. *)
Definition owns (w : World) (uid resourceId collection : jsstring) : bool :=
  match firestore w !! (collection, resourceId) with
  | Some data => strict_eq_string (field data (js "authorId")) uid
  | None => false
  end.

(** Sample data for the closed statements below. *)

Definition fresh_world : World :=
  {| loginAttempts := ∅; firestore := ∅; currentUser := None;
     reads := 0; trace := [] |}.

(** A clock stuck at time 1000, a provider that rejects every password, a
    store that answers every lookup. *)
Definition frozen_env : Env :=
  {| clock := fun _ => 1000;
     identityProvider := fun _ _ _ => Rejected (js "auth/wrong-password");
     lookupError := fun _ => None;
     signOutError := fun _ => None |}.

(** A clock that advances by one millisecond per read. *)
Definition running_env : Env :=
  {| clock := fun n => 1000 + Z.of_nat n;
     identityProvider := fun _ _ _ => Rejected (js "auth/wrong-password");
     lookupError := fun _ => None;
     signOutError := fun _ => None |}.

(** A provider that accepts every password as user [u1]. *)
Definition accepting_env : Env :=
  {| clock := fun _ => 1000;
     identityProvider := fun _ _ _ => Credential (js "u1");
     lookupError := fun _ => None;
     signOutError := fun _ => None |}.

(** A store whose lookups all reject. *)
Definition offline_env : Env :=
  {| clock := fun _ => 1000;
     identityProvider := fun _ _ _ => Rejected (js "auth/network-request-failed");
     lookupError := fun _ => Some (js "unavailable");
     signOutError := fun _ => None |}.

(** 95 letters followed by [@b.com]: 101 code units of valid shape. *)
Definition long_email : jsstring := repeat 97%N 95 ++ js "@b.com".

(** A store with one administrator [root] and one article [a1] written by [u2]. *)
Definition sample_store : gmap (jsstring * jsstring) DocumentData :=
  <[(js "admins", js "root") := ∅]>
    (<[(js "articles", js "a1") := {[js "authorId" := VString (js "u2")]}]> ∅).

Definition sample_world : World :=
  {| loginAttempts := ∅; firestore := sample_store; currentUser := None;
     reads := 0; trace := [] |}.

(** A table holding one blocked record stamped at time 0, and a clock that
    shows one millisecond past the lockout window. *)
Definition stale_world : World :=
  with_attempts (insert (js "client_0") {| count := 5%N; lastAttempt := 0 |})
    fresh_world.

Definition late_env : Env :=
  {| clock := fun _ => LOCKOUT_DURATION + 1;
     identityProvider := fun _ _ _ => Rejected (js "auth/wrong-password");
     lookupError := fun _ => None;
     signOutError := fun _ => None |}.


(** A clock that shows 1000 during its first 14 reads, those of five failed
    logins from an empty table, and 1001 from then on; the provider rejects
    every password. *)
Definition next_millisecond_env : Env :=
  {| clock := fun n => if (n <? 14)%nat then 1000 else 1001;
     identityProvider := fun _ _ _ => Rejected (js "auth/wrong-password");
     lookupError := fun _ => None;
     signOutError := fun _ => None |}.

(** ** Repeated failed logins

    A login fails at the identity provider when [authenticateUser] throws
    one of the two errors of its [catch] block. [FailedLogins env identifier
    w0 n w] holds when [n] such logins, made one after the other from [w0],
    all drew the client identifier [identifier] and end in world [w]. *)

Definition credential_failure (e : Error) : Prop :=
  e = InvalidCredentials \/ e = LoginFailed.

Inductive FailedLogins (env : Env) (identifier : jsstring) (w0 : World) :
    nat -> World -> Prop :=
| FailedLogins_none : FailedLogins env identifier w0 O w0
| FailedLogins_more n w email password e w' :
    FailedLogins env identifier w0 n w ->
    result getClientIdentifier env w = Return identifier ->
    authenticateUser email password env w = (Throw e, w') ->
    credential_failure e ->
    FailedLogins env identifier w0 (S n) w'.

Definition ONE_MINUTE : Z := 60 * 1000.

(** The world after [n] logins with the same credentials. *)
Fixpoint after_logins (n : nat) (email password : jsstring) (env : Env)
    (w : World) : World :=
  match n with
  | O => w
  | S n' =>
      after (authenticateUser email password) env
        (after_logins n' email password env w)
  end.

(** Five logins with a wrong password, all made while the clock of
    [next_millisecond_env] shows 1000. *)
Definition five_failed_logins : World :=
  after_logins 5 (js "a@b.com") (js "wrong-password") next_millisecond_env
    fresh_world.

(** The table holds a record for [identifier] with at least [k] failures,
    stamped by a clock read made at or after read number [lo]. *)
Definition recent_failures (env : Env) (identifier : jsstring) (lo : nat)
    (k : N) (w : World) : Prop :=
  exists a n,
    loginAttempts w !! identifier = Some a /\ (k <= count a)%N /\
    (lo <= n < reads w)%nat /\ lastAttempt a = clock env n.

(** What [authenticateUser] does once the throttle has let the call through,
    path by path; [authenticateUser_eq] below relates it to the procedure. *)
Definition login_after_throttle (identifier email password : jsstring)
    (env : Env) (w1 : World) : Outcome jsstring * World :=
  if negb (validateEmail email) then (Throw InvalidEmail, w1)
  else if negb (validatePassword password) then (Throw InvalidPassword, w1)
  else
    match identityProvider env (length (trace w1)) email password with
    | Credential uid =>
        (Return uid,
         after (recordLoginAttempt identifier true) env
           (with_user (Some uid) (log (SignIn email password) w1)))
    | Rejected code =>
        (Throw
           (if strict_eq_string (VString code) (js "auth/user-not-found")
               || strict_eq_string (VString code) (js "auth/wrong-password")
            then InvalidCredentials else LoginFailed),
         after (recordLoginAttempt identifier false) env
           (log (SignIn email password) w1))
    end.

(** Reading a base-36 numeral back; used to show that [toString36] loses
    nothing. *)
Definition undigit36 (c : N) : N :=
  if (c <? 58)%N then (c - 48)%N else (c - 87)%N.

Definition value36 (s : jsstring) : N :=
  fold_left (fun v c => (36 * v + undigit36 c)%N) s 0%N.

(** A clock that never shows a negative time and moves forward between
    any two reads. *)
Definition running_clock (env : Env) : Prop :=
  (forall n, 0 <= clock env n) /\
  (forall n m, (n < m)%nat -> clock env n < clock env m).

(** Every key of the attempt table is an identifier drawn at an earlier
    clock read. *)
Definition keys_from_past_reads (env : Env) (w : World) : Prop :=
  forall identifier,
    is_Some (loginAttempts w !! identifier) ->
    exists n, (n < reads w)%nat /\
              identifier = js "client_" ++ toString36 (clock env n).

(** * The rest of the code: name validation, registration, moderation and
    the guarded writes of the database module *)

(** ** What the regular expressions accept

    The language of a regular expression, against which the derivative
    matcher [regex_test] is checked. *)
Inductive Matches : regex -> jsstring -> Prop :=
| Matches_eps : Matches Eps []
| Matches_class p c : p c = true -> Matches (Class p) [c]
| Matches_cat r s u v : Matches r u -> Matches s v -> Matches (Cat r s) (u ++ v)
| Matches_alt_l r s u : Matches r u -> Matches (Alt r s) u
| Matches_alt_r r s u : Matches s u -> Matches (Alt r s) u
| Matches_star_nil r : Matches (Star r) []
| Matches_star_more r u v :
    Matches r u -> Matches (Star r) v -> Matches (Star r) (u ++ v).

(** [[a-zA-Z\u0600-\u06FF\s]] *)
Definition name_char (c : N) : bool :=
  ((97 <=? c) && (c <=? 122) || (65 <=? c) && (c <=? 90)
   || (1536 <=? c) && (c <=? 1791) || is_space c)%N.

(** [/^[a-zA-Z\u0600-\u06FF\s]+$/] *)
Definition nameRegex : regex := Plus (Class name_char).

Definition validateName (name : jsstring) : bool :=
  (2 <=? js_length name) && (js_length name <=? 50) && regex_test nameRegex name.

(** [s.trim()]: white space and line terminators go from both ends. *)
Fixpoint trim_start (s : jsstring) : jsstring :=
  match s with
  | [] => []
  | c :: s' => if is_space c then trim_start s' else s
  end.

Definition trim (s : jsstring) : jsstring :=
  rev (trim_start (rev (trim_start s))).

(** A JavaScript string in a condition: the empty string counts as false. *)
Definition truthy (s : jsstring) : bool :=
  match s with [] => false | _ :: _ => true end.

(** [v === b] for a boolean [b] *)
Definition strict_eq_bool (v : Value) (b : bool) : bool :=
  match v with
  | VBool c => Bool.eqb c b
  | _ => false
  end.

(** ** Services behind the writing functions

    Account creation, the Google pop-up, the store's writes, the server's
    clock and DOMPurify are outside the repository; their replies are
    oracles that may depend on the whole current state. *)

(** [result.user] of a Google sign-in; [displayName] and [email] may be [null]. *)
Record GoogleUser : Type := {
  google_uid : jsstring;
  displayName : option jsstring;
  google_email : option jsstring;
}.

Inductive PopupReply : Type :=
| PopupRejected (code : jsstring)
| PopupUser (user : GoogleUser).

Record Backend : Type := {
  (** the reply of [createUserWithEmailAndPassword] *)
  accountReply : World -> jsstring -> jsstring -> SignInReply;
  (** the reply of [signInWithPopup] *)
  popupReply : World -> PopupReply;
  (** [Some code]: a write issued in this state rejects *)
  writeError : World -> option jsstring;
  (** the time [serverTimestamp()] resolves to *)
  serverTime : World -> nat;
  (** [DOMPurify.sanitize] *)
  purify : jsstring -> jsstring;
}.

(** The guarded operations of the database module; each has a message for a
    refusal and one for a failure. *)
Inductive Action : Type :=
| UpdateArticle
| DeleteArticle
| UpdateProject
| DeleteProject
| DeleteChatMessage
| UpdateChatSettings.

(** The errors of these functions, one per message: the errors of the login
    procedures and the SDK rejections, and the messages of registration,
    Google sign-in, banning and the database module. *)
Inductive SiteError : Type :=
| Raised (e : Error)
| RegistrationLimited
| InvalidName
| EmailInUse
| RegistrationFailed
| GoogleSignInFailed
| ActionDenied
| Denied (what : Action)
| Failed (what : Action).

(** [error.code] *)
Definition site_error_code (e : SiteError) : Value :=
  match e with
  | Raised e => error_code e
  | _ => VUndefined
  end.

Inductive Completion (A : Type) : Type :=
| Done (a : A)
| Thrown (e : SiteError).
Arguments Done {A} a.
Arguments Thrown {A} e.

Definition Site (A : Type) : Type :=
  Backend -> Env -> World -> Completion A * World.

Definition site_ret {A} (a : A) : Site A := fun _ _ w => (Done a, w).

Definition site_throw {A} (e : SiteError) : Site A := fun _ _ w => (Thrown e, w).

Definition site_bind {A B} (m : Site A) (k : A -> Site B) : Site B :=
  fun b env w =>
    match m b env w with
    | (Done a, w') => k a b env w'
    | (Thrown e, w') => (Thrown e, w')
    end.

Definition site_try {A} (body : Site A) (handler : SiteError -> Site A) : Site A :=
  fun b env w =>
    match body b env w with
    | (Done a, w') => (Done a, w')
    | (Thrown e, w') => handler e b env w'
    end.

(** A computation of the first part, run as it is. *)
Definition lift {A} (m : M A) : Site A :=
  fun _ env w =>
    match m env w with
    | (Return a, w') => (Done a, w')
    | (Throw e, w') => (Thrown (Raised e), w')
    end.

Declare Scope site_scope.
Delimit Scope site_scope with site.
Notation "x <- m ;; k" := (site_bind m (fun x => k))
  (at level 100, m at next level, right associativity) : site_scope.
Notation "m ;;; k" := (site_bind m (fun _ => k))
  (at level 100, right associativity) : site_scope.

Definition with_firestore
    (f : gmap (jsstring * jsstring) DocumentData -> gmap (jsstring * jsstring) DocumentData)
    (w : World) : World :=
  {| loginAttempts := loginAttempts w; firestore := f (firestore w);
     currentUser := currentUser w; reads := reads w; trace := trace w |}.

(** [sanitizeInput] *)
Definition sanitizeInput (b : Backend) (input : jsstring) : jsstring :=
  purify b (trim input).

(** [new Date()]: a timestamp object, named by the time it holds. *)
Definition new_Date : M Value :=
  (now <- Date_now ;; ret (VObject (Z.to_nat now)))%js_m.

(** [serverTimestamp()], as the store resolves it when it writes. *)
Definition serverTimestamp (b : Backend) (w : World) : Value :=
  VObject (serverTime b w).

(** [createUserWithEmailAndPassword(auth, email, password)]: a new account
    is signed in at once. *)
Definition createUserWithEmailAndPassword (email password : jsstring) : Site jsstring :=
  fun b _ w =>
    match accountReply b w email password with
    | Credential uid => (Done uid, with_user (Some uid) w)
    | Rejected code => (Thrown (Raised (SdkError code)), w)
    end.

(** [signInWithPopup(auth, googleProvider)] *)
Definition signInWithPopup : Site GoogleUser :=
  fun b _ w =>
    match popupReply b w with
    | PopupUser user => (Done user, with_user (Some (google_uid user)) w)
    | PopupRejected code => (Thrown (Raised (SdkError code)), w)
    end.

(** [setDoc(doc(db, collection, id), data)]: the document becomes [data]. *)
Definition setDoc (collection id : jsstring) (data : DocumentData) : Site unit :=
  fun b _ w =>
    match writeError b w with
    | Some code => (Thrown (Raised (SdkError code)), w)
    | None => (Done tt, with_firestore (insert (collection, id) data) w)
    end.

(** [updateDoc(doc(db, collection, id), changes)]: the fields of [changes]
    replace those of the stored document; a missing document is an error. *)
Definition updateDoc (collection id : jsstring) (changes : DocumentData) : Site unit :=
  fun b _ w =>
    match writeError b w with
    | Some code => (Thrown (Raised (SdkError code)), w)
    | None =>
        match firestore w !! (collection, id) with
        | None => (Thrown (Raised (SdkError (js "not-found"))), w)
        | Some stored =>
            (Done tt, with_firestore (insert (collection, id) (changes ∪ stored)) w)
        end
    end.

(** [deleteDoc(doc(db, collection, id))] *)
Definition deleteDoc (collection id : jsstring) : Site unit :=
  fun b _ w =>
    match writeError b w with
    | Some code => (Thrown (Raised (SdkError code)), w)
    | None => (Done tt, with_firestore (delete (collection, id)) w)
    end.

Local Open Scope site_scope.

(** ** Registration and Google sign-in *)

Definition registerUser (name email password : jsstring) : Site jsstring :=
  identifier <- lift getClientIdentifier ;;
  limited <- lift (isRateLimited identifier) ;;
  if limited then site_throw RegistrationLimited
  else if negb (validateName name) then site_throw InvalidName
  else if negb (validateEmail email) then site_throw (Raised InvalidEmail)
  else if negb (validatePassword password) then site_throw (Raised InvalidPassword)
  else
    site_try
      (uid <- createUserWithEmailAndPassword email password ;;
       createdAt <- lift new_Date ;;
       (fun b =>
          setDoc (js "users") uid
            (<[js "name" := VString (sanitizeInput b name)]>
               (<[js "email" := VString (sanitizeInput b email)]>
                  (<[js "createdAt" := createdAt]>
                     {[js "isActive" := VBool true]}))) b) ;;;
       lift (recordLoginAttempt identifier true) ;;;
       site_ret uid)
      (fun error =>
         lift (recordLoginAttempt identifier false) ;;;
         if strict_eq_string (site_error_code error) (js "auth/email-already-in-use")
         then site_throw EmailInUse
         else site_throw RegistrationFailed).

(** The default display name of the source, a six-letter Arabic word. *)
Definition default_display_name : jsstring :=
  [1605; 1587; 1578; 1582; 1583; 1605]%N.

(** [s || fallback] for a string or [null] *)
Definition or_else (s : option jsstring) (fallback : jsstring) : jsstring :=
  match s with
  | Some (c :: s') => c :: s'
  | _ => fallback
  end.

Definition signInWithGoogle : Site GoogleUser :=
  site_try
    (user <- signInWithPopup ;;
     userDoc <- lift (getDoc (js "users") (google_uid user)) ;;
     match userDoc with
     | Some _ => site_ret tt
     | None =>
         createdAt <- lift new_Date ;;
         (fun b =>
            setDoc (js "users") (google_uid user)
              (<[js "name" :=
                   VString (sanitizeInput b (or_else (displayName user) default_display_name))]>
                 (<[js "email" :=
                      VString (sanitizeInput b (or_else (google_email user) []))]>
                    (<[js "createdAt" := createdAt]>
                       {[js "isActive" := VBool true]}))) b)
     end ;;;
     site_ret user)
    (fun _ => site_throw GoogleSignInFailed).

(** ** Chat moderation *)

Definition banUserFromChat (adminId userId : jsstring) : Site unit :=
  allowed <- lift (isAdmin adminId) ;;
  if negb allowed then site_throw ActionDenied
  else
    bannedAt <- lift new_Date ;;
    updateDoc (js "users") userId
      (<[js "isBannedFromChat" := VBool true]>
         (<[js "bannedAt" := bannedAt]>
            {[js "bannedBy" := VString adminId]})).

Definition isUserBannedFromChat (userId : jsstring) : M bool :=
  try_catch
    (userDoc <- getDoc (js "users") userId ;;
     match userDoc with
     | None => ret false
     | Some userData =>
         ret (strict_eq_bool (field userData (js "isBannedFromChat")) true)
     end)%js_m
    (fun _ => console_error ;;; ret false)%js_m.

(** ** Guarded writes of the database module *)

(** [Partial<Article>] and [Partial<Project>]: every field may be missing. *)
Record ArticleUpdate : Type := {
  new_title : option jsstring;
  new_content : option jsstring;
  new_imageUrl : option jsstring;
  new_category : option jsstring;
  new_authorId : option jsstring;
  new_authorName : option jsstring;
}.

Record ProjectUpdate : Type := {
  new_name : option jsstring;
  new_description : option jsstring;
  new_link : option jsstring;
  new_project_imageUrl : option jsstring;
  new_project_authorId : option jsstring;
  new_project_authorName : option jsstring;
}.

(** [if (value) data[name] = convert(value)] *)
Definition set_if_truthy (name : jsstring) (value : option jsstring)
    (convert : jsstring -> jsstring) (data : DocumentData) : DocumentData :=
  match value with
  | Some s => if truthy s then <[name := VString (convert s)]> data else data
  | None => data
  end.

Definition updateArticle (articleId userId : jsstring) (updateData : ArticleUpdate)
    : Site unit :=
  site_try
    (allowed <- lift (verifyResourceOwnership userId articleId (js "articles")) ;;
     if negb allowed then site_throw (Denied UpdateArticle)
     else
       fun b env w =>
         updateDoc (js "articles") articleId
           (set_if_truthy (js "category") (new_category updateData) id
              (set_if_truthy (js "imageUrl") (new_imageUrl updateData) (sanitizeInput b)
                 (set_if_truthy (js "content") (new_content updateData) (sanitizeInput b)
                    (set_if_truthy (js "title") (new_title updateData) (sanitizeInput b)
                       {[js "updatedAt" := serverTimestamp b w]}))))
           b env w)
    (fun _ => lift console_error ;;; site_throw (Failed UpdateArticle)).

Definition deleteArticle (articleId userId : jsstring) : Site unit :=
  site_try
    (allowed <- lift (verifyResourceOwnership userId articleId (js "articles")) ;;
     if negb allowed then site_throw (Denied DeleteArticle)
     else deleteDoc (js "articles") articleId)
    (fun _ => lift console_error ;;; site_throw (Failed DeleteArticle)).

Definition updateProject (projectId userId : jsstring) (updateData : ProjectUpdate)
    : Site unit :=
  site_try
    (allowed <- lift (verifyResourceOwnership userId projectId (js "projects")) ;;
     if negb allowed then site_throw (Denied UpdateProject)
     else
       fun b env w =>
         updateDoc (js "projects") projectId
           (set_if_truthy (js "imageUrl") (new_project_imageUrl updateData) (sanitizeInput b)
              (set_if_truthy (js "link") (new_link updateData) (sanitizeInput b)
                 (set_if_truthy (js "description") (new_description updateData) (sanitizeInput b)
                    (set_if_truthy (js "name") (new_name updateData) (sanitizeInput b)
                       {[js "updatedAt" := serverTimestamp b w]}))))
           b env w)
    (fun _ => lift console_error ;;; site_throw (Failed UpdateProject)).

Definition deleteProject (projectId userId : jsstring) : Site unit :=
  site_try
    (allowed <- lift (verifyResourceOwnership userId projectId (js "projects")) ;;
     if negb allowed then site_throw (Denied DeleteProject)
     else deleteDoc (js "projects") projectId)
    (fun _ => lift console_error ;;; site_throw (Failed DeleteProject)).

Definition deleteChatMessage (messageId userId : jsstring) : Site unit :=
  site_try
    (allowed <- lift (isAdmin userId) ;;
     if negb allowed then site_throw (Denied DeleteChatMessage)
     else deleteDoc (js "chat") messageId)
    (fun _ => lift console_error ;;; site_throw (Failed DeleteChatMessage)).

(** [getChatSettings]: the stored settings document, [{ isEnabled: true }]
    when there is none or the lookup fails. *)
Definition getChatSettings : M DocumentData :=
  try_catch
    (docSnap <- getDoc (js "settings") (js "chat") ;;
     match docSnap with
     | None => ret {[js "isEnabled" := VBool true]}
     | Some data => ret data
     end)%js_m
    (fun _ => console_error ;;; ret {[js "isEnabled" := VBool true]})%js_m.

Definition updateChatSettings (userId : jsstring) (isEnabled : bool) : Site unit :=
  site_try
    (allowed <- lift (isAdmin userId) ;;
     if negb allowed then site_throw (Denied UpdateChatSettings)
     else updateDoc (js "settings") (js "chat") {[js "isEnabled" := VBool isEnabled]})
    (fun _ => lift console_error ;;; site_throw (Failed UpdateChatSettings)).

Local Close Scope site_scope.

(** Vocabulary for the statements about these functions. *)
Definition outcome {A} (m : Site A) (b : Backend) (env : Env) (w : World)
    : Completion A := fst (m b env w).

Definition world_after {A} (m : Site A) (b : Backend) (env : Env) (w : World)
    : World := snd (m b env w).

(** What [authenticateAdmin] does once the throttle has let the call
    through, path by path; [authenticateAdmin_eq] relates it to the
    procedure. *)
Definition admin_after_throttle (identifier email password : jsstring)
    (env : Env) (w1 : World) : Outcome bool * World :=
  if negb (includes email (js "admin")) && negb (includes email (js "deepbug"))
  then
    (Throw Unauthorized,
     after (recordLoginAttempt identifier false ;;; recordLoginAttempt identifier false)%js_m
       env w1)
  else
    match identityProvider env (length (trace w1)) email password with
    | Rejected code =>
        (Throw (SdkError code),
         after (recordLoginAttempt identifier false) env
           (log (SignIn email password) w1))
    | Credential uid =>
        let w2 := with_user (Some uid) (log (SignIn email password) w1) in
        if privileged w2 uid && negb (bool_decide (is_Some (lookupError env (length (trace w2)))))
        then
          (Return true,
           after (recordLoginAttempt identifier true) env (after (isAdmin uid) env w2))
        else
          let w3 := after (isAdmin uid) env w2 in
          match signOutError env (length (trace w3)) with
          | None =>
              (Throw Unauthorized,
               after (recordLoginAttempt identifier false ;;;
                      recordLoginAttempt identifier false)%js_m
                 env (with_user None (log SignOut w3)))
          | Some code =>
              (Throw (SdkError code),
               after (recordLoginAttempt identifier false) env (log SignOut w3))
          end
    end.

(** Sample data for the closed statements about these functions. *)

(** Services that accept every account as user [u7], reject the pop-up,
    carry out every write and leave text as it is. *)
Definition plain_backend : Backend :=
  {| accountReply := fun _ _ _ => Credential (js "u7");
     popupReply := fun _ => PopupRejected (js "auth/popup-closed-by-user");
     writeError := fun _ => None;
     serverTime := fun _ => 5000%nat;
     purify := fun s => s |}.

(** Services whose writes all reject. *)
Definition readonly_backend : Backend :=
  {| accountReply := fun _ _ _ => Credential (js "u7");
     popupReply := fun _ => PopupRejected (js "auth/popup-closed-by-user");
     writeError := fun _ => Some (js "permission-denied");
     serverTime := fun _ => 5000%nat;
     purify := fun s => s |}.

(** A table in which the identifier drawn at time 1000 is blocked. *)
Definition blocked_world : World :=
  with_attempts (insert (js "client_rs") {| count := 5%N; lastAttempt := 1000 |})
    fresh_world.

(** A table with an old record of four failures for that identifier. *)
Definition old_record_world : World :=
  with_attempts (insert (js "client_rs") {| count := 4%N; lastAttempt := -900001 |})
    fresh_world.

(** A provider that knows no user. *)
Definition unknown_user_env : Env :=
  {| clock := fun _ => 1000;
     identityProvider := fun _ _ _ => Rejected (js "auth/user-not-found");
     lookupError := fun _ => None;
     signOutError := fun _ => None |}.

(** A provider that accepts every password as the administrator [root]. *)
Definition root_env : Env :=
  {| clock := fun _ => 1000;
     identityProvider := fun _ _ _ => Credential (js "root");
     lookupError := fun _ => None;
     signOutError := fun _ => None |}.

(** A call was refused: it threw [e] and left the document store as it was. *)
Definition refused_with {A} (e : SiteError) (m : Site A) (b : Backend) (env : Env)
    (w : World) : Prop :=
  outcome m b env w = Thrown e /\ firestore (world_after m b env w) = firestore w.

(** A store with the article [a1] of [sample_store], a chat message [m1]
    written by [u2], a profile for [u2] and the administrator [root]. *)
Definition site_store : gmap (jsstring * jsstring) DocumentData :=
  <[(js "chat", js "m1") := {[js "authorId" := VString (js "u2")]}]>
    (<[(js "users", js "u2") := {[js "name" := VString (js "Sara")]}]>
       (<[(js "projects", js "p1") := {[js "authorId" := VString (js "u2")]}]>
          sample_store)).

Definition site_world : World :=
  {| loginAttempts := ∅; firestore := site_store; currentUser := None;
     reads := 0; trace := [] |}.

(** An update that tries to rename an article and to take it over. *)
Definition takeover_update : ArticleUpdate :=
  {| new_title := Some (js "New title"); new_content := Some [];
     new_imageUrl := None; new_category := None;
     new_authorId := Some (js "u1"); new_authorName := Some (js "Eve") |}.

Definition rename_project : ProjectUpdate :=
  {| new_name := Some (js "New name"); new_description := None; new_link := None;
     new_project_imageUrl := None; new_project_authorId := Some (js "u1");
     new_project_authorName := None |}.

(** The value a field ends with after an update that offers [value] for it:
    a non-empty string replaces the stored value, anything else keeps it. *)
Definition updated_field (value : option jsstring) (convert : jsstring -> jsstring)
    (stored : Value) : Value :=
  match value with
  | Some s => if truthy s then VString (convert s) else stored
  | None => stored
  end.

(** The settings [getChatSettings] falls back to. *)
Definition default_chat_settings : DocumentData := {[js "isEnabled" := VBool true]}.

(** A store in which [u2] is banned from the chat and the chat is closed. *)
Definition closed_chat_store : gmap (jsstring * jsstring) DocumentData :=
  <[(js "settings", js "chat") := {[js "isEnabled" := VBool false]}]>
    (<[(js "users", js "u2") := {[js "isBannedFromChat" := VBool true]}]> sample_store).

Definition closed_chat_world : World :=
  {| loginAttempts := ∅; firestore := closed_chat_store; currentUser := None;
     reads := 0; trace := [] |}.

(** The profile document written for a new user. *)
Definition user_profile (b : Backend) (name email : jsstring) (createdAt : Value)
    : DocumentData :=
  <[js "name" := VString (sanitizeInput b name)]>
    (<[js "email" := VString (sanitizeInput b email)]>
       (<[js "createdAt" := createdAt]> {[js "isActive" := VBool true]})).

(** The error [registerUser] throws for a rejection with this code. *)
Definition registration_error (code : jsstring) : SiteError :=
  if bool_decide (code = js "auth/email-already-in-use") then EmailInUse
  else RegistrationFailed.

(** What [registerUser] does once the throttle has let the call through,
    path by path; [registerUser_eq] relates it to the procedure. *)
Definition register_after_throttle (identifier name email password : jsstring)
    (b : Backend) (env : Env) (w1 : World) : Completion jsstring * World :=
  if negb (validateName name) then (Thrown InvalidName, w1)
  else if negb (validateEmail email) then (Thrown (Raised InvalidEmail), w1)
  else if negb (validatePassword password) then (Thrown (Raised InvalidPassword), w1)
  else
    match accountReply b w1 email password with
    | Rejected code =>
        (Thrown (registration_error code),
         after (recordLoginAttempt identifier false) env w1)
    | Credential uid =>
        let w2 := tick (with_user (Some uid) w1) in
        match writeError b w2 with
        | Some code =>
            (Thrown (registration_error code),
             after (recordLoginAttempt identifier false) env w2)
        | None =>
            (Done uid,
             after (recordLoginAttempt identifier true) env
               (with_firestore
                  (insert (js "users", uid)
                     (user_profile b name email
                        (VObject (Z.to_nat (clock env (reads w1))))))
                  w2))
        end
    end.

(** Services that create the account of [u7] but cannot write. *)
Definition half_backend : Backend :=
  {| accountReply := fun _ _ _ => Credential (js "u7");
     popupReply := fun _ => PopupUser {| google_uid := js "u2"; displayName := None;
                                          google_email := Some (js "sara@example.com") |};
     writeError := fun _ => Some (js "permission-denied");
     serverTime := fun _ => 5000%nat;
     purify := fun s => s |}.

(** Services whose pop-up signs in [u9], a user without a display name. *)
Definition google_backend : Backend :=
  {| accountReply := fun _ _ _ => Rejected (js "auth/operation-not-allowed");
     popupReply := fun _ => PopupUser {| google_uid := js "u9"; displayName := Some [];
                                          google_email := None |};
     writeError := fun _ => None;
     serverTime := fun _ => 5000%nat;
     purify := fun s => s |}.

(** A series of logins, one after the other, with their results. *)
Fixpoint run_logins (attempts : list (jsstring * jsstring)) (env : Env) (w : World)
    : list (Outcome jsstring) * World :=
  match attempts with
  | [] => ([], w)
  | (email, password) :: rest =>
      let (r, w1) := authenticateUser email password env w in
      let (rs, w2) := run_logins rest env w1 in
      (r :: rs, w2)
  end.

(** * Properties *)

Example toString36_35 : toString36 35 = js "z".
Proof. reflexivity. Qed.

Example toString36_time : toString36 1700000000000 = js "loyw3v28".
Proof. vm_compute. reflexivity. Qed.

(** ** Validators *)

Lemma validateEmail_length_gt email :
  (100 < length email)%nat -> validateEmail email = false.
Proof.
  intros Hlen. unfold validateEmail, js_length.
  replace (Z.of_nat (length email) <=? 100) with false.
  - apply andb_false_r.
  - symmetry. apply Z.leb_gt. lia.
Qed.

(** C9. [validateEmail] accepts "a@b.com", refuses "not-an-email", and
    refuses every string of more than 100 code units; [long_email] has 101
    code units and the shape the regular expression asks for, and is
    refused. *)
Theorem validateEmail_examples :
  validateEmail (js "a@b.com") = true /\
  validateEmail (js "not-an-email") = false /\
  (forall email, (100 < length email)%nat -> validateEmail email = false) /\
  (length long_email = 101%nat /\ regex_test emailRegex long_email = true /\
   validateEmail long_email = false).
Proof.
  split; [reflexivity |]. split; [reflexivity |]. split.
  - exact validateEmail_length_gt.
  - split; [reflexivity |]. split; [vm_compute; reflexivity |].
    apply validateEmail_length_gt. vm_compute. lia.
Qed.

Lemma validateEmail_examples_witness :
  (100 < length long_email)%nat /\ validateEmail long_email = false.
Proof.
  split.
  - vm_compute. lia.
  - apply (proj1 (proj2 (proj2 validateEmail_examples)) long_email).
    vm_compute. lia.
Defined.

(** ** Attempt throttle *)

Lemma isRateLimited_eq identifier env w :
  isRateLimited identifier env w =
  match loginAttempts w !! identifier with
  | None => (Return false, w)
  | Some attempt =>
      if LOCKOUT_DURATION <? clock env (reads w) - lastAttempt attempt
      then (Return false, with_attempts (delete identifier) (tick w))
      else (Return (MAX_LOGIN_ATTEMPTS <=? count attempt)%N, tick w)
  end.
Proof.
  unfold isRateLimited, bind, gets, Date_now, ret, modify. simpl.
  destruct (loginAttempts w !! identifier) as [attempt|]; [|reflexivity].
  destruct (LOCKOUT_DURATION <? clock env (reads w) - lastAttempt attempt);
    reflexivity.
Qed.

Lemma recordLoginAttempt_eq identifier success env w :
  recordLoginAttempt identifier success env w =
  (Return tt,
   with_attempts
     (if success then delete identifier
      else insert identifier
             {| count := (failureCount w identifier + 1)%N;
                lastAttempt := clock env (reads w) |})
     (tick w)).
Proof.
  unfold recordLoginAttempt, bind, gets, Date_now, modify, failureCount. simpl.
  destruct success; [reflexivity |].
  destruct (loginAttempts w !! identifier); reflexivity.
Qed.

Lemma record_failures_S n identifier env w :
  record_failures (S n) identifier env w =
  record_failures n identifier env
    (after (recordLoginAttempt identifier false) env w).
Proof.
  unfold after. change (record_failures (S n) identifier)
    with (recordLoginAttempt identifier false ;;; record_failures n identifier).
  unfold bind. rewrite recordLoginAttempt_eq. reflexivity.
Qed.

Lemma record_failures_reads n identifier env w :
  reads (after (record_failures n identifier) env w) = (reads w + n)%nat.
Proof.
  revert w. induction n as [|n IH]; intros w.
  - unfold after. simpl. lia.
  - unfold after in *. rewrite record_failures_S. rewrite IH.
    unfold after. rewrite recordLoginAttempt_eq. simpl. lia.
Qed.

(** After [S n] consecutive failures the record counts [S n] more failures
    and is stamped with the last clock read. *)
Lemma record_failures_lookup n identifier env w :
  loginAttempts (after (record_failures (S n) identifier) env w) !! identifier =
  Some {| count := (failureCount w identifier + N.of_nat (S n))%N;
          lastAttempt := clock env (reads w + n)%nat |}.
Proof.
  revert w. induction n as [|n IH]; intros w.
  - unfold after. rewrite record_failures_S. unfold after.
    rewrite recordLoginAttempt_eq. simpl.
    rewrite lookup_insert_eq. rewrite Nat.add_0_r. reflexivity.
  - unfold after in *. rewrite record_failures_S. rewrite IH.
    unfold after, failureCount. rewrite recordLoginAttempt_eq. simpl.
    rewrite lookup_insert_eq. simpl.
    replace (reads w + S n)%nat with (S (reads w + n)) by lia.
    unfold failureCount. f_equal. f_equal. lia.
Qed.

Lemma record_failures_run n identifier env w :
  record_failures n identifier env w =
  (Return tt, after (record_failures n identifier) env w).
Proof.
  revert w. induction n as [|n IH]; intros w.
  - reflexivity.
  - unfold after. rewrite record_failures_S. rewrite IH. reflexivity.
Qed.

(** C4. Starting without a record for the identifier, five consecutive
    recorded failures followed by a check made no later than
    [LOCKOUT_DURATION] after the fifth give [true]; four consecutive
    failures followed by a check give [false]. *)
Theorem isRateLimited_after_failures identifier env w :
  loginAttempts w !! identifier = None ->
  (clock env (reads w + 5)%nat - clock env (reads w + 4)%nat <= LOCKOUT_DURATION ->
   result (record_failures 5 identifier ;;; isRateLimited identifier) env w
   = Return true) /\
  result (record_failures 4 identifier ;;; isRateLimited identifier) env w
  = Return false.
Proof.
  intros Hnone.
  assert (Hzero : failureCount w identifier = 0%N)
    by (unfold failureCount; rewrite Hnone; reflexivity).
  split.
  - intros Hwindow. unfold result, bind.
    rewrite record_failures_run, isRateLimited_eq.
    rewrite record_failures_lookup, record_failures_reads, Hzero. simpl.
    destruct (Z.ltb_spec LOCKOUT_DURATION
                (clock env (reads w + 5)%nat - clock env (reads w + 4)%nat));
      [lia | reflexivity].
  - unfold result, bind.
    rewrite record_failures_run, isRateLimited_eq.
    rewrite record_failures_lookup, record_failures_reads, Hzero. simpl.
    destruct (LOCKOUT_DURATION <? _); reflexivity.
Qed.

Lemma isRateLimited_after_failures_witness :
  result (record_failures 5 (js "client_rs") ;;; isRateLimited (js "client_rs"))
    frozen_env fresh_world = Return true /\
  result (record_failures 4 (js "client_rs") ;;; isRateLimited (js "client_rs"))
    frozen_env fresh_world = Return false.
Proof.
  destruct (isRateLimited_after_failures (js "client_rs") frozen_env fresh_world)
    as [H5 H4]; [reflexivity |].
  split; [apply H5; vm_compute; discriminate | exact H4].
Defined.

(** C5. A record with [count >= MAX_LOGIN_ATTEMPTS] whose [lastAttempt] lies
    more than [LOCKOUT_DURATION] in the past makes the check answer [false],
    and the check removes the record from the table. *)
Theorem isRateLimited_expired identifier env w attempt :
  loginAttempts w !! identifier = Some attempt ->
  (MAX_LOGIN_ATTEMPTS <= count attempt)%N ->
  LOCKOUT_DURATION < clock env (reads w) - lastAttempt attempt ->
  result (isRateLimited identifier) env w = Return false /\
  loginAttempts (after (isRateLimited identifier) env w)
  = delete identifier (loginAttempts w) /\
  loginAttempts (after (isRateLimited identifier) env w) !! identifier = None.
Proof.
  intros Hsome _ Hstale. unfold result, after.
  rewrite isRateLimited_eq, Hsome.
  destruct (Z.ltb_spec LOCKOUT_DURATION (clock env (reads w) - lastAttempt attempt));
    [| lia].
  simpl. split; [reflexivity |]. split; [reflexivity |].
  apply lookup_delete_eq.
Qed.

Lemma isRateLimited_expired_witness :
  result (isRateLimited (js "client_0")) late_env stale_world = Return false /\
  loginAttempts (after (isRateLimited (js "client_0")) late_env stale_world)
  = delete (js "client_0") (loginAttempts stale_world) /\
  loginAttempts (after (isRateLimited (js "client_0")) late_env stale_world)
    !! js "client_0" = None.
Proof.
  apply (isRateLimited_expired (js "client_0") late_env stale_world
           {| count := 5%N; lastAttempt := 0 |}).
  - reflexivity.
  - vm_compute. discriminate.
  - vm_compute. reflexivity.
Defined.

(** C6. Recording a success deletes the identifier's record, whatever it
    was: its failure count is 0 again and the next check answers [false].
    Recording a failure stores a record whose count is the previous count
    (0 when there was none) plus one and whose [lastAttempt] is the current
    time. Neither throws. *)
Theorem recordLoginAttempt_spec identifier env w :
  (result (recordLoginAttempt identifier true) env w = Return tt /\
   loginAttempts (after (recordLoginAttempt identifier true) env w)
   = delete identifier (loginAttempts w) /\
   failureCount (after (recordLoginAttempt identifier true) env w) identifier = 0%N /\
   forall env',
     result (isRateLimited identifier) env'
       (after (recordLoginAttempt identifier true) env w) = Return false) /\
  (result (recordLoginAttempt identifier false) env w = Return tt /\
   loginAttempts (after (recordLoginAttempt identifier false) env w)
   = <[identifier := {| count := (failureCount w identifier + 1)%N;
                        lastAttempt := clock env (reads w) |}]> (loginAttempts w) /\
   failureCount (after (recordLoginAttempt identifier false) env w) identifier
   = (failureCount w identifier + 1)%N).
Proof.
  unfold result, after. rewrite !recordLoginAttempt_eq. simpl. split.
  - split; [reflexivity |]. split; [reflexivity |]. split.
    + unfold failureCount. simpl. rewrite lookup_delete_eq. reflexivity.
    + intros env'. rewrite isRateLimited_eq. simpl.
      rewrite lookup_delete_eq. reflexivity.
  - split; [reflexivity |]. split; [reflexivity |].
    unfold failureCount at 1. simpl. rewrite lookup_insert_eq. reflexivity.
Qed.

(** ** Ownership and role resolver *)

Lemma isAdmin_eq uid env w :
  isAdmin uid env w =
  match lookupError env (length (trace w)) with
  | Some _ => (Return false, log ConsoleError (log (GetDoc (js "admins") uid) w))
  | None => (Return (privileged w uid), log (GetDoc (js "admins") uid) w)
  end.
Proof.
  unfold isAdmin, try_catch, bind, getDoc, console_error, modify, ret, privileged.
  destruct (lookupError env (length (trace w))); reflexivity.
Qed.

Lemma verifyResourceOwnership_eq userId resourceId collection env w :
  verifyResourceOwnership userId resourceId collection env w =
  match lookupError env (length (trace w)) with
  | Some _ =>
      (Return false, log ConsoleError (log (GetDoc collection resourceId) w))
  | None =>
      match firestore w !! (collection, resourceId) with
      | None => (Return false, log (GetDoc collection resourceId) w)
      | Some data =>
          if strict_eq_string (field data (js "authorId")) userId
          then (Return true, log (GetDoc collection resourceId) w)
          else isAdmin userId env (log (GetDoc collection resourceId) w)
      end
  end.
Proof.
  unfold verifyResourceOwnership, try_catch, bind at 1, getDoc.
  destruct (lookupError env (length (trace w))); [reflexivity |].
  destruct (firestore w !! (collection, resourceId)) as [data|]; [|reflexivity].
  destruct (strict_eq_string (field data (js "authorId")) userId); [reflexivity |].
  rewrite isAdmin_eq.
  destruct (lookupError env _); reflexivity.
Qed.

Lemma isAdmin_returns uid env w :
  exists b, result (isAdmin uid) env w = Return b.
Proof.
  unfold result. rewrite isAdmin_eq.
  destruct (lookupError env (length (trace w))); eexists; reflexivity.
Qed.

Lemma verifyResourceOwnership_returns userId resourceId collection env w :
  exists b, result (verifyResourceOwnership userId resourceId collection) env w
            = Return b.
Proof.
  unfold result. rewrite verifyResourceOwnership_eq.
  destruct (lookupError env (length (trace w))); [eexists; reflexivity |].
  destruct (firestore w !! (collection, resourceId)) as [data|];
    [| eexists; reflexivity].
  destruct (strict_eq_string _ _); [eexists; reflexivity |].
  apply isAdmin_returns.
Qed.

(** The answer of a non-owner: it is the answer of the role lookup. *)
Lemma verifyResourceOwnership_not_owner userId resourceId collection env w :
  owns w userId resourceId collection = false ->
  result (verifyResourceOwnership userId resourceId collection) env w
  = Return false
  \/ (lookupError env (length (trace w)) = None /\
      is_Some (firestore w !! (collection, resourceId)) /\
      result (verifyResourceOwnership userId resourceId collection) env w
      = result (isAdmin userId) env (log (GetDoc collection resourceId) w)).
Proof.
  unfold owns, result. intros Hown. rewrite verifyResourceOwnership_eq.
  destruct (lookupError env (length (trace w))); [left; reflexivity |].
  destruct (firestore w !! (collection, resourceId)) as [data|];
    [| left; reflexivity].
  rewrite Hown. right. split; [reflexivity |]. split; [eexists |]; reflexivity.
Qed.

(** C8. [isAdmin] and [verifyResourceOwnership] return on every input and in
    every environment: they never throw. When the store lookup they start
    with rejects, both return [false]; [verifyResourceOwnership] also
    returns [false] when the resource does not exist, and when the
    principal is not the owner and the role lookup rejects. *)
Theorem ownership_checks_fail_closed userId resourceId collection env w :
  (exists b, result (isAdmin userId) env w = Return b) /\
  (exists b, result (verifyResourceOwnership userId resourceId collection) env w
             = Return b) /\
  (is_Some (lookupError env (length (trace w))) ->
   result (isAdmin userId) env w = Return false /\
   result (verifyResourceOwnership userId resourceId collection) env w
   = Return false) /\
  (firestore w !! (collection, resourceId) = None ->
   result (verifyResourceOwnership userId resourceId collection) env w
   = Return false) /\
  (owns w userId resourceId collection = false ->
   is_Some (lookupError env (S (length (trace w)))) ->
   result (verifyResourceOwnership userId resourceId collection) env w
   = Return false).
Proof.
  split; [apply isAdmin_returns |].
  split; [apply verifyResourceOwnership_returns |].
  split; [| split].
  - intros [code Hcode]. unfold result.
    rewrite isAdmin_eq, verifyResourceOwnership_eq, Hcode. split; reflexivity.
  - intros Habsent. unfold result. rewrite verifyResourceOwnership_eq, Habsent.
    destruct (lookupError env (length (trace w))); reflexivity.
  - intros Hown [code Hcode].
    destruct (verifyResourceOwnership_not_owner userId resourceId collection env w Hown)
      as [Hfalse | (_ & _ & Hrole)]; [exact Hfalse |].
    rewrite Hrole. unfold result. rewrite isAdmin_eq. simpl. rewrite Hcode.
    reflexivity.
Qed.

Lemma ownership_checks_fail_closed_witness :
  result (isAdmin (js "root")) offline_env sample_world = Return false /\
  result (verifyResourceOwnership (js "u2") (js "a1") (js "articles"))
    offline_env sample_world = Return false /\
  result (verifyResourceOwnership (js "root") (js "a9") (js "articles"))
    frozen_env sample_world = Return false.
Proof.
  destruct (ownership_checks_fail_closed (js "u2") (js "a1") (js "articles")
              offline_env sample_world) as (_ & _ & Hfail & _).
  destruct (ownership_checks_fail_closed (js "root") (js "a9") (js "articles")
              frozen_env sample_world) as (_ & _ & _ & Habsent & _).
  destruct (ownership_checks_fail_closed (js "root") (js "a1") (js "articles")
              offline_env sample_world) as (_ & _ & Hroot & _).
  split; [apply Hroot; eexists; reflexivity |].
  split; [apply Hfail; eexists; reflexivity |].
  apply Habsent. vm_compute. reflexivity.
Defined.

(** C10. When the resource document does not exist the answer is [false]
    whoever asks, an administrator included, and the only store lookup the
    call makes is the one for the resource: the role lookup is not made. *)
Theorem verifyResourceOwnership_absent userId resourceId collection env w :
  firestore w !! (collection, resourceId) = None ->
  result (verifyResourceOwnership userId resourceId collection) env w
  = Return false /\
  trace (after (verifyResourceOwnership userId resourceId collection) env w)
  = match lookupError env (length (trace w)) with
    | Some _ => [ConsoleError; GetDoc collection resourceId]
    | None => [GetDoc collection resourceId]
    end ++ trace w.
Proof.
  intros Habsent. unfold result, after.
  rewrite verifyResourceOwnership_eq, Habsent.
  destruct (lookupError env (length (trace w))); split; reflexivity.
Qed.

Lemma verifyResourceOwnership_absent_witness :
  privileged sample_world (js "root") = true /\
  result (verifyResourceOwnership (js "root") (js "a9") (js "articles"))
    frozen_env sample_world = Return false /\
  trace (after (verifyResourceOwnership (js "root") (js "a9") (js "articles"))
           frozen_env sample_world)
  = [GetDoc (js "articles") (js "a9")].
Proof.
  split; [vm_compute; reflexivity |].
  apply (verifyResourceOwnership_absent (js "root") (js "a9") (js "articles")
           frozen_env sample_world).
  vm_compute. reflexivity.
Defined.

(** C1, as stated, fails: [root] is in the privileged set, yet the check on
    the absent article [a9] answers [false]. *)
Lemma verifyResourceOwnership_iff_counterexample :
  privileged sample_world (js "root") = true /\
  result (verifyResourceOwnership (js "root") (js "a9") (js "articles"))
    frozen_env sample_world = Return false /\
  result (verifyResourceOwnership (js "root") (js "a9") (js "articles"))
    frozen_env sample_world
  <> Return (owns sample_world (js "root") (js "a9") (js "articles")
             || privileged sample_world (js "root")).
Proof.
  split; [vm_compute; reflexivity |].
  split; [vm_compute; reflexivity |].
  vm_compute. discriminate.
Qed.

(** C1, amended. When the resource document exists and the store lookups
    succeed, the check answers [true] exactly when the principal's id is the
    resource's [authorId] or the principal is in the privileged set. The
    owner gets [true] as soon as the resource lookup succeeds, privileged or
    not; a principal that neither owns the resource nor is privileged gets
    [false] in every case. *)
Theorem verifyResourceOwnership_decides userId resourceId collection env w :
  (is_Some (firestore w !! (collection, resourceId)) ->
   lookupError env (length (trace w)) = None ->
   lookupError env (S (length (trace w))) = None ->
   result (verifyResourceOwnership userId resourceId collection) env w
   = Return (owns w userId resourceId collection || privileged w userId)) /\
  (owns w userId resourceId collection = true ->
   lookupError env (length (trace w)) = None ->
   result (verifyResourceOwnership userId resourceId collection) env w
   = Return true) /\
  (owns w userId resourceId collection = false ->
   privileged w userId = false ->
   result (verifyResourceOwnership userId resourceId collection) env w
   = Return false).
Proof.
  split; [| split].
  - intros [data Hdata] Hfirst Hsecond. unfold result, owns.
    rewrite verifyResourceOwnership_eq, Hfirst, Hdata.
    destruct (strict_eq_string (field data (js "authorId")) userId);
      [reflexivity |].
    rewrite isAdmin_eq. simpl. rewrite Hsecond. reflexivity.
  - unfold owns, result. intros Hown Hfirst.
    rewrite verifyResourceOwnership_eq, Hfirst.
    destruct (firestore w !! (collection, resourceId)) as [data|];
      [| discriminate].
    rewrite Hown. reflexivity.
  - intros Hown Hpriv.
    destruct (verifyResourceOwnership_not_owner userId resourceId collection env w Hown)
      as [Hfalse | (_ & _ & Hrole)]; [exact Hfalse |].
    rewrite Hrole. unfold result. rewrite isAdmin_eq. simpl.
    destruct (lookupError env (S (length (trace w)))); [reflexivity |].
    simpl. f_equal. exact Hpriv.
Qed.

Lemma verifyResourceOwnership_decides_witness :
  result (verifyResourceOwnership (js "root") (js "a1") (js "articles"))
    frozen_env sample_world = Return true /\
  result (verifyResourceOwnership (js "u2") (js "a1") (js "articles"))
    frozen_env sample_world = Return true /\
  result (verifyResourceOwnership (js "u1") (js "a1") (js "articles"))
    frozen_env sample_world = Return false.
Proof.
  destruct (verifyResourceOwnership_decides (js "root") (js "a1") (js "articles")
              frozen_env sample_world) as (Hiff & _ & _).
  destruct (verifyResourceOwnership_decides (js "u2") (js "a1") (js "articles")
              frozen_env sample_world) as (_ & Howner & _).
  destruct (verifyResourceOwnership_decides (js "u1") (js "a1") (js "articles")
              frozen_env sample_world) as (_ & _ & Hnone).
  split; [| split].
  - apply Hiff; [eexists; vm_compute; reflexivity | reflexivity | reflexivity].
  - apply Howner; [vm_compute; reflexivity | reflexivity].
  - apply Hnone; vm_compute; reflexivity.
Defined.

(** ** Login procedures *)

Lemma getClientIdentifier_eq env w :
  getClientIdentifier env w =
  (Return (js "client_" ++ toString36 (clock env (reads w))), tick w).
Proof. reflexivity. Qed.

Lemma bind_return {A B} (m : M A) (k : A -> M B) env w a w' :
  m env w = (Return a, w') -> bind m k env w = k a env w'.
Proof. intros H. unfold bind. rewrite H. reflexivity. Qed.

Lemma bind_throw {A B} (m : M A) (k : A -> M B) env w e w' :
  m env w = (Throw e, w') -> bind m k env w = (Throw e, w').
Proof. intros H. unfold bind. rewrite H. reflexivity. Qed.

Lemma try_catch_throw {A} (body : M A) (handler : Error -> M A) env w e w' :
  body env w = (Throw e, w') -> try_catch body handler env w = handler e env w'.
Proof. intros H. unfold try_catch. rewrite H. reflexivity. Qed.

Lemma try_catch_return {A} (body : M A) (handler : Error -> M A) env w a w' :
  body env w = (Return a, w') -> try_catch body handler env w = (Return a, w').
Proof. intros H. unfold try_catch. rewrite H. reflexivity. Qed.

Lemma isRateLimited_returns identifier env w :
  exists b, isRateLimited identifier env w
            = (Return b, after (isRateLimited identifier) env w).
Proof.
  unfold after. rewrite isRateLimited_eq.
  destruct (loginAttempts w !! identifier) as [a|]; [| eexists; reflexivity].
  destruct (LOCKOUT_DURATION <? _); eexists; reflexivity.
Qed.

Lemma getClientIdentifier_result env w identifier :
  result getClientIdentifier env w = Return identifier ->
  js "client_" ++ toString36 (clock env (reads w)) = identifier.
Proof.
  unfold result. rewrite getClientIdentifier_eq. cbn [fst].
  intros H. injection H as H. exact H.
Qed.

(** What the throttle check yields: the identifier drawn from the clock and
    the answer of [isRateLimited] for it. *)
Lemma throttle_check_inv env w identifier limited w1 :
  throttle_check env w = (Return (identifier, limited), w1) ->
  getClientIdentifier env w = (Return identifier, tick w) /\
  isRateLimited identifier env (tick w) = (Return limited, w1).
Proof.
  unfold throttle_check. intros H.
  rewrite (bind_return _ _ _ _ _ _ (getClientIdentifier_eq env w)) in H.
  destruct (isRateLimited_returns (js "client_" ++ toString36 (clock env (reads w)))
              env (tick w)) as [b Hb].
  rewrite (bind_return _ _ _ _ _ _ Hb) in H. unfold ret in H.
  inversion H; subst. split; [reflexivity | exact Hb].
Qed.

Ltac run_records := repeat (rewrite recordLoginAttempt_eq; cbv beta iota).

Lemma authenticateAdmin_without_marker_run env w email password identifier w1 :
  throttle_check env w = (Return (identifier, false), w1) ->
  includes email (js "admin") = false ->
  includes email (js "deepbug") = false ->
  authenticateAdmin email password env w =
  (Throw Unauthorized,
   after (recordLoginAttempt identifier false ;;; recordLoginAttempt identifier false)
     env w1).
Proof.
  intros Hcheck Hadmin Hdeepbug.
  destruct (throttle_check_inv _ _ _ _ _ Hcheck) as [Hid Hlim].
  unfold authenticateAdmin.
  rewrite (bind_return _ _ _ _ _ _ Hid), (bind_return _ _ _ _ _ _ Hlim).
  rewrite Hadmin, Hdeepbug. simpl negb. simpl andb.
  unfold try_catch, after, bind, throw. run_records. reflexivity.
Qed.


Lemma two_failures_lookup identifier env w :
  loginAttempts
    (after (recordLoginAttempt identifier false ;;; recordLoginAttempt identifier false)
       env w) !! identifier
  = Some {| count := (failureCount w identifier + 1 + 1)%N;
            lastAttempt := clock env (S (reads w)) |}.
Proof.
  unfold after, bind. run_records. unfold failureCount. simpl.
  rewrite !lookup_insert_eq. reflexivity.
Qed.

Lemma two_failures_trace identifier env w :
  trace (after (recordLoginAttempt identifier false ;;; recordLoginAttempt identifier false)
           env w) = trace w /\
  currentUser
    (after (recordLoginAttempt identifier false ;;; recordLoginAttempt identifier false)
       env w) = currentUser w.
Proof.
  unfold after, bind. run_records. split; reflexivity.
Qed.

(** C3, as stated, fails: a login on the privileged route with an email that
    carries no marker leaves a record with two failures for the client
    identifier where there was none. *)
Lemma authenticateAdmin_marker_counterexample :
  includes (js "user@example.com") (js "admin") = false /\
  includes (js "user@example.com") (js "deepbug") = false /\
  loginAttempts fresh_world !! js "client_rs" = None /\
  loginAttempts
    (after (authenticateAdmin (js "user@example.com") (js "secret"))
       frozen_env fresh_world) !! js "client_rs"
  = Some {| count := 2%N; lastAttempt := 1000 |} /\
  loginAttempts
    (after (authenticateAdmin (js "user@example.com") (js "secret"))
       frozen_env fresh_world)
  <> loginAttempts fresh_world.
Proof.
  split; [vm_compute; reflexivity |]. split; [vm_compute; reflexivity |].
  split; [vm_compute; reflexivity |]. split; [vm_compute; reflexivity |].
  intros Heq.
  assert (Hlook : loginAttempts
            (after (authenticateAdmin (js "user@example.com") (js "secret"))
               frozen_env fresh_world) !! js "client_rs"
          = loginAttempts fresh_world !! js "client_rs") by (rewrite Heq; reflexivity).
  vm_compute in Hlook. discriminate.
Qed.

(** C3, amended. When the throttle lets the call through, an email without
    a marker is refused with [Unauthorized] and the identity provider is not
    contacted; the refusal is recorded as a failure: the client identifier
    ends with a record stamped during the call, and its failure count is
    above the count that stood after the throttle check. *)
Theorem authenticateAdmin_without_marker env w email password identifier w1 :
  throttle_check env w = (Return (identifier, false), w1) ->
  includes email (js "admin") = false ->
  includes email (js "deepbug") = false ->
  result (authenticateAdmin email password) env w = Throw Unauthorized /\
  trace (after (authenticateAdmin email password) env w) = trace w /\
  exists a,
    loginAttempts (after (authenticateAdmin email password) env w) !! identifier
    = Some a /\
    (failureCount w1 identifier < count a)%N /\
    lastAttempt a = clock env (S (reads w1)).
Proof.
  intros Hcheck Hadmin Hdeepbug. unfold result, after.
  rewrite (authenticateAdmin_without_marker_run _ _ _ _ _ _ Hcheck Hadmin Hdeepbug).
  cbn [fst snd]. split; [reflexivity |]. split.
  - rewrite (proj1 (two_failures_trace identifier env w1)).
    destruct (throttle_check_inv _ _ _ _ _ Hcheck) as [_ Hlim].
    rewrite isRateLimited_eq in Hlim. simpl in Hlim.
    destruct (loginAttempts w !! identifier) as [a|];
      [destruct (LOCKOUT_DURATION <? _) |]; inversion Hlim; reflexivity.
  - rewrite two_failures_lookup. eexists. split; [reflexivity |].
    split; [simpl; lia | reflexivity].
Qed.

Lemma authenticateAdmin_without_marker_witness :
  result (authenticateAdmin (js "user@example.com") (js "secret"))
    frozen_env fresh_world = Throw Unauthorized /\
  trace (after (authenticateAdmin (js "user@example.com") (js "secret"))
           frozen_env fresh_world) = trace fresh_world /\
  exists a,
    loginAttempts
      (after (authenticateAdmin (js "user@example.com") (js "secret"))
         frozen_env fresh_world) !! js "client_rs" = Some a /\
    (failureCount (tick fresh_world) (js "client_rs") < count a)%N /\
    lastAttempt a = clock frozen_env (S (reads (tick fresh_world))).
Proof.
  apply (authenticateAdmin_without_marker frozen_env fresh_world
           (js "user@example.com") (js "secret") (js "client_rs")
           (tick fresh_world)).
  - vm_compute. reflexivity.
  - vm_compute. reflexivity.
  - vm_compute. reflexivity.
Defined.

Lemma isAdmin_frame uid env w :
  loginAttempts (after (isAdmin uid) env w) = loginAttempts w /\
  currentUser (after (isAdmin uid) env w) = currentUser w /\
  reads (after (isAdmin uid) env w) = reads w.
Proof.
  unfold after. rewrite isAdmin_eq.
  destruct (lookupError env (length (trace w))); repeat split; reflexivity.
Qed.






(** When the sign-out is rejected instead, the [catch] block rethrows the
    error of the sign-out: the failure is recorded once and the user stays
    signed in. *)
Lemma authenticateAdmin_sign_out_rejected env w email password identifier w1 uid w2 code :
  throttle_check env w = (Return (identifier, false), w1) ->
  includes email (js "admin") || includes email (js "deepbug") = true ->
  signInWithEmailAndPassword email password env w1 = (Return uid, w2) ->
  result (isAdmin uid) env w2 = Return false ->
  signOutError env (length (trace (after (isAdmin uid) env w2))) = Some code ->
  authenticateAdmin email password env w =
  (Throw (SdkError code),
   after (recordLoginAttempt identifier false) env
     (log SignOut (after (isAdmin uid) env w2))).
Proof.
  intros Hcheck Hmarker Hsign Hrole Hout.
  destruct (throttle_check_inv _ _ _ _ _ Hcheck) as [Hid Hlim].
  assert (Hrun : isAdmin uid env w2 = (Return false, after (isAdmin uid) env w2)).
  { unfold result, after in *. destruct (isAdmin uid env w2) as [r w3].
    simpl in *. subst r. reflexivity. }
  unfold authenticateAdmin.
  rewrite (bind_return _ _ _ _ _ _ Hid), (bind_return _ _ _ _ _ _ Hlim).
  replace (negb (includes email (js "admin")) && negb (includes email (js "deepbug")))
    with false
    by (destruct (includes email (js "admin")), (includes email (js "deepbug"));
        simpl in *; congruence).
  unfold try_catch at 1.
  rewrite (bind_return _ _ _ _ _ _ Hsign), (bind_return _ _ _ _ _ _ Hrun).
  cbv beta. change (negb false) with true. cbv iota.
  unfold bind at 1, signOut. rewrite Hout.
  unfold after, bind, throw. run_records. reflexivity.
Qed.

Lemma authenticateUser_eq email password env w :
  authenticateUser email password env w =
  let identifier := js "client_" ++ toString36 (clock env (reads w)) in
  match isRateLimited identifier env (tick w) with
  | (Return true, w1) => (Throw RateLimited, w1)
  | (Return false, w1) => login_after_throttle identifier email password env w1
  | (Throw e, w1) => (Throw e, w1)
  end.
Proof.
  unfold authenticateUser, login_after_throttle.
  rewrite (bind_return _ _ _ _ _ _ (getClientIdentifier_eq env w)).
  cbv zeta. unfold bind at 1.
  destruct (isRateLimited _ env (tick w)) as [[[|]|e] w1]; try reflexivity.
  destruct (negb (validateEmail email)); [reflexivity |].
  destruct (negb (validatePassword password)); [reflexivity |].
  unfold try_catch, bind at 1, signInWithEmailAndPassword, after.
  destruct (identityProvider env (length (trace w1)) email password) as [code|uid].
  - unfold bind. run_records. simpl error_code.
    destruct (_ || _); reflexivity.
  - unfold bind, ret. run_records. reflexivity.
Qed.

Lemma login_after_throttle_reads identifier email password env w1 :
  (reads w1 <= reads (login_after_throttle identifier email password env w1).2)%nat.
Proof.
  unfold login_after_throttle.
  destruct (negb (validateEmail email)); [reflexivity |].
  destruct (negb (validatePassword password)); [reflexivity |].
  destruct (identityProvider env (length (trace w1)) email password);
    unfold after; rewrite recordLoginAttempt_eq; simpl; lia.
Qed.

(** A credential failure went through the identity provider and was
    recorded once. *)
Lemma login_after_throttle_failure identifier email password env w1 e w' :
  login_after_throttle identifier email password env w1 = (Throw e, w') ->
  credential_failure e ->
  w' = after (recordLoginAttempt identifier false) env
         (log (SignIn email password) w1).
Proof.
  unfold login_after_throttle, credential_failure. intros Hrun Hfail.
  destruct (negb (validateEmail email));
    [inversion Hrun; subst; destruct Hfail; discriminate |].
  destruct (negb (validatePassword password));
    [inversion Hrun; subst; destruct Hfail; discriminate |].
  destruct (identityProvider env (length (trace w1)) email password);
    inversion Hrun; reflexivity.
Qed.

Lemma authenticateUser_reads email password env w :
  (reads w < reads (after (authenticateUser email password) env w))%nat.
Proof.
  unfold after. rewrite authenticateUser_eq. cbv zeta.
  rewrite isRateLimited_eq.
  set (identifier := js "client_" ++ toString36 (clock env (reads w))).
  change (loginAttempts (tick w)) with (loginAttempts w).
  destruct (loginAttempts w !! identifier) as [a|].
  - destruct (LOCKOUT_DURATION <? clock env (reads (tick w)) - lastAttempt a).
    + pose proof (login_after_throttle_reads identifier email password env
                    (with_attempts (delete identifier) (tick (tick w)))) as H.
      simpl in H. lia.
    + destruct (MAX_LOGIN_ATTEMPTS <=? count a)%N; [simpl; lia |].
      pose proof (login_after_throttle_reads identifier email password env
                    (tick (tick w))) as H.
      simpl in H. lia.
  - pose proof (login_after_throttle_reads identifier email password env (tick w)) as H.
    simpl in H. lia.
Qed.

(** *** Failures inside one minute

    Throughout this section the clock reads numbered [lo] to [B] lie within
    one minute of each other, so no record stamped by one of them goes
    stale before read [B]. *)
Section WithinOneMinute.
Variables (env : Env) (identifier : jsstring) (lo B : nat).

Hypothesis within_minute :
  forall n m, (lo <= n <= B)%nat -> (lo <= m <= B)%nat ->
              clock env m - clock env n <= ONE_MINUTE.

Lemma recent_record_not_stale a n m :
  (lo <= n <= B)%nat -> (lo <= m <= B)%nat ->
  lastAttempt a = clock env n ->
  (LOCKOUT_DURATION <? clock env m - lastAttempt a) = false.
Proof.
  intros Hn Hm Hlast. apply Z.ltb_ge. rewrite Hlast.
  pose proof (within_minute n m Hn Hm).
  unfold ONE_MINUTE, LOCKOUT_DURATION in *. lia.
Qed.

(** One more credential failure for the same identifier: the record counts
    one more failure. *)
Lemma failed_login_step k w email password e w' :
  (lo <= reads w)%nat -> (reads w' <= B)%nat ->
  k = 0%N \/ recent_failures env identifier lo k w ->
  result getClientIdentifier env w = Return identifier ->
  authenticateUser email password env w = (Throw e, w') ->
  credential_failure e ->
  recent_failures env identifier lo (k + 1) w'.
Proof.
  intros Hlo HB Hk Hid Hrun Hfail.
  apply getClientIdentifier_result in Hid. rename Hid into Hident.
  rewrite authenticateUser_eq in Hrun. cbv zeta in Hrun.
  rewrite Hident, isRateLimited_eq in Hrun.
  change (loginAttempts (tick w)) with (loginAttempts w) in Hrun.
  change (reads (tick w)) with (S (reads w)) in Hrun.
  assert (Hrecorded : forall w1,
            (k <= failureCount w1 identifier)%N ->
            (lo <= reads w1)%nat ->
            login_after_throttle identifier email password env w1 = (Throw e, w') ->
            recent_failures env identifier lo (k + 1) w').
  { intros w1 Hcount Hlo1 Hbody.
    rewrite (login_after_throttle_failure _ _ _ _ _ _ _ Hbody Hfail).
    unfold after. rewrite recordLoginAttempt_eq. cbn [snd].
    exists {| count := (failureCount (log (SignIn email password) w1) identifier + 1)%N;
              lastAttempt := clock env (reads (log (SignIn email password) w1)) |},
           (reads w1).
    simpl. rewrite lookup_insert_eq. split; [reflexivity |].
    split; [| split; [lia | reflexivity]].
    unfold failureCount in *. simpl. lia. }
  destruct (loginAttempts w !! identifier) as [a|] eqn:Ha.
  - destruct (LOCKOUT_DURATION <? clock env (S (reads w)) - lastAttempt a) eqn:Hstale.
    + assert (HB' : (S (reads w) <= B)%nat).
      { pose proof (login_after_throttle_reads identifier email password env
                      (with_attempts (delete identifier) (tick (tick w)))) as Hr.
        rewrite Hrun in Hr. simpl in Hr. lia. }
      destruct Hk as [-> | (a' & n & Ha' & Hle & Hn & Hlast)].
      * apply (Hrecorded (with_attempts (delete identifier) (tick (tick w))));
          [lia | simpl; lia | exact Hrun].
      * rewrite Ha in Ha'. inversion Ha'; subst a'.
        rewrite (recent_record_not_stale a n (S (reads w))) in Hstale;
          [discriminate | lia | lia | exact Hlast].
    + destruct (MAX_LOGIN_ATTEMPTS <=? count a)%N.
      * inversion Hrun; subst. destruct Hfail; discriminate.
      * apply (Hrecorded (tick (tick w))); [| simpl; lia | exact Hrun].
        unfold failureCount. simpl. rewrite Ha. simpl.
        destruct Hk as [-> | (a' & n & Ha' & Hle & _)]; [lia |].
        rewrite Ha in Ha'. inversion Ha'; subst a'. exact Hle.
  - destruct Hk as [-> | (a' & n & Ha' & _)]; [| rewrite Ha in Ha'; discriminate].
    apply (Hrecorded (tick w)); [lia | simpl; lia | exact Hrun].
Qed.

(** A login under [identifier] that finds at least [MAX_LOGIN_ATTEMPTS]
    recent failures is refused before anything else happens. *)
Lemma blocked_login w email password :
  (S (reads w) <= B)%nat ->
  recent_failures env identifier lo MAX_LOGIN_ATTEMPTS w ->
  result getClientIdentifier env w = Return identifier ->
  authenticateUser email password env w = (Throw RateLimited, tick (tick w)).
Proof.
  intros HB (a & n & Ha & Hcount & Hn & Hlast) Hid.
  apply getClientIdentifier_result in Hid.
  rewrite authenticateUser_eq. cbv zeta. rewrite Hid, isRateLimited_eq.
  change (loginAttempts (tick w)) with (loginAttempts w).
  change (reads (tick w)) with (S (reads w)).
  rewrite Ha, (recent_record_not_stale a n (S (reads w))); [| lia | lia | exact Hlast].
  replace (MAX_LOGIN_ATTEMPTS <=? count a)%N with true
    by (symmetry; apply N.leb_le; exact Hcount).
  reflexivity.
Qed.
End WithinOneMinute.

Lemma failed_logins_invariant env identifier w0 B :
  (forall n m, (reads w0 <= n <= B)%nat -> (reads w0 <= m <= B)%nat ->
               clock env m - clock env n <= ONE_MINUTE) ->
  forall n w,
    FailedLogins env identifier w0 n w ->
    (reads w <= B)%nat ->
    (reads w0 <= reads w)%nat /\
    (n = O \/ recent_failures env identifier (reads w0) (N.of_nat n) w).
Proof.
  intros Hwin n w Hlogins.
  induction Hlogins as [| n w email password e w' Hlogins IH Hid Hrun Hfail];
    intros HB.
  - split; [lia | left; reflexivity].
  - pose proof (authenticateUser_reads email password env w) as Hreads.
    unfold after in Hreads. rewrite Hrun in Hreads. cbn [snd] in Hreads.
    destruct IH as [Hlo Hrecent]; [lia |].
    split; [lia |]. right.
    replace (N.of_nat (S n)) with (N.of_nat n + 1)%N by lia.
    apply (failed_login_step env identifier (reads w0) B Hwin (N.of_nat n) w
             email password e w' Hlo HB); try assumption.
    destruct Hrecent as [-> | Hrecent]; [left; reflexivity | right; exact Hrecent].
Qed.

(** What the throttle does under one identifier: after five logins in a
    row that failed at the identity provider, all under one client
    identifier, a sixth login under that identifier,
    with every clock read since the first login inside one minute, throws
    [RateLimited] and makes no external call: [signInWithEmailAndPassword]
    is not invoked. *)
Theorem authenticateUser_sixth_attempt_blocked env identifier w0 w5 email password :
  FailedLogins env identifier w0 5 w5 ->
  (forall n m, (reads w0 <= n <= S (reads w5))%nat ->
               (reads w0 <= m <= S (reads w5))%nat ->
               clock env m - clock env n <= ONE_MINUTE) ->
  result getClientIdentifier env w5 = Return identifier ->
  result (authenticateUser email password) env w5 = Throw RateLimited /\
  trace (after (authenticateUser email password) env w5) = trace w5.
Proof.
  intros Hlogins Hwin Hid.
  destruct (failed_logins_invariant env identifier w0 (S (reads w5)) Hwin
              5%nat w5 Hlogins) as [Hlo [Hzero | Hrecent]];
    [lia | discriminate |].
  unfold result, after.
  rewrite (blocked_login env identifier (reads w0) (S (reads w5)) Hwin
             w5 email password (le_n _) Hrecent Hid).
  split; reflexivity.
Qed.

Ltac frozen_login k :=
  apply (FailedLogins_more frozen_env (js "client_rs") fresh_world k
           (after_logins k (js "a@b.com") (js "wrong-password") frozen_env fresh_world)
           (js "a@b.com") (js "wrong-password") InvalidCredentials);
  [| vm_compute; reflexivity | vm_compute; reflexivity | left; reflexivity].

Lemma frozen_failed_logins :
  FailedLogins frozen_env (js "client_rs") fresh_world 5
    (after_logins 5 (js "a@b.com") (js "wrong-password") frozen_env fresh_world).
Proof.
  frozen_login 4%nat. frozen_login 3%nat. frozen_login 2%nat.
  frozen_login 1%nat. frozen_login 0%nat. apply FailedLogins_none.
Defined.

Lemma authenticateUser_sixth_attempt_blocked_witness :
  result (authenticateUser (js "a@b.com") (js "right-password")) frozen_env
    (after_logins 5 (js "a@b.com") (js "wrong-password") frozen_env fresh_world)
  = Throw RateLimited /\
  trace (after (authenticateUser (js "a@b.com") (js "right-password")) frozen_env
           (after_logins 5 (js "a@b.com") (js "wrong-password") frozen_env fresh_world))
  = trace (after_logins 5 (js "a@b.com") (js "wrong-password") frozen_env fresh_world).
Proof.
  apply (authenticateUser_sixth_attempt_blocked frozen_env (js "client_rs")
           fresh_world).
  - exact frozen_failed_logins.
  - intros n m _ _. vm_compute. discriminate.
  - vm_compute. reflexivity.
Defined.

(** On a clock that advances between calls every login draws a new
    identifier, so the sixth login after five failures is not blocked: it
    reaches the identity provider. *)
Example advancing_clock_sixth_login :
  result (authenticateUser (js "a@b.com") (js "wrong-password")) running_env
    (after_logins 5 (js "a@b.com") (js "wrong-password") running_env fresh_world)
  = Throw InvalidCredentials /\
  length (trace (after_logins 6 (js "a@b.com") (js "wrong-password")
                   running_env fresh_world)) = 6%nat /\
  size (loginAttempts (after_logins 6 (js "a@b.com") (js "wrong-password")
                         running_env fresh_world)) = 6%nat.
Proof. vm_compute. repeat split; reflexivity. Qed.

Ltac failed_login env k :=
  apply (FailedLogins_more env (js "client_rs") fresh_world k
           (after_logins k (js "a@b.com") (js "wrong-password") env fresh_world)
           (js "a@b.com") (js "wrong-password") InvalidCredentials);
  [| vm_compute; reflexivity | vm_compute; reflexivity | left; reflexivity].

(** C2. The code at the failing input. Five logins in a row fail at the
    identity provider while the clock shows 1000, all under the identifier
    [client_rs], which the throttle then holds blocked with five failures;
    the sixth login is made one millisecond later, well inside the minute.
    [getClientIdentifier] now yields [client_rt], the table holds no record
    under it, and the sixth login is not refused: it calls
    [signInWithEmailAndPassword] and throws [InvalidCredentials], not
    [RateLimited]. *)
Theorem authenticateUser_sixth_attempt_not_blocked :
  FailedLogins next_millisecond_env (js "client_rs") fresh_world 5
    five_failed_logins /\
  (forall n m, clock next_millisecond_env m - clock next_millisecond_env n
               <= ONE_MINUTE) /\
  failureCount five_failed_logins (js "client_rs") = 5%N /\
  result (isRateLimited (js "client_rs")) next_millisecond_env
    five_failed_logins = Return true /\
  result getClientIdentifier next_millisecond_env five_failed_logins
  = Return (js "client_rt") /\
  result (authenticateUser (js "a@b.com") (js "wrong-password"))
    next_millisecond_env five_failed_logins = Throw InvalidCredentials /\
  result (authenticateUser (js "a@b.com") (js "wrong-password"))
    next_millisecond_env five_failed_logins <> Throw RateLimited /\
  trace (after (authenticateUser (js "a@b.com") (js "wrong-password"))
           next_millisecond_env five_failed_logins)
  = SignIn (js "a@b.com") (js "wrong-password") :: trace five_failed_logins /\
  length (trace (after (authenticateUser (js "a@b.com") (js "wrong-password"))
                   next_millisecond_env five_failed_logins)) = 6%nat.
Proof.
  split.
  { unfold five_failed_logins.
    failed_login next_millisecond_env 4%nat.
    failed_login next_millisecond_env 3%nat.
    failed_login next_millisecond_env 2%nat.
    failed_login next_millisecond_env 1%nat.
    failed_login next_millisecond_env 0%nat.
    apply FailedLogins_none. }
  split.
  { intros n m. cbn [clock next_millisecond_env].
    destruct (n <? 14)%nat, (m <? 14)%nat; vm_compute; discriminate. }
  split; [vm_compute; reflexivity |].
  split; [vm_compute; reflexivity |].
  split; [vm_compute; reflexivity |].
  split; [vm_compute; reflexivity |].
  split; [vm_compute; discriminate |].
  split; vm_compute; reflexivity.
Qed.

(** ** Client identifiers

    [toString36] can be read back, so distinct non-negative clock values
    give distinct client identifiers. *)

Lemma undigit36_digit36 d : (d < 36)%N -> undigit36 (digit36 d) = d.
Proof.
  intros Hd. unfold undigit36, digit36.
  destruct (N.ltb_spec d 10).
  - destruct (N.ltb_spec (48 + d) 58); lia.
  - destruct (N.ltb_spec (87 + d) 58); lia.
Qed.

Lemma digits36_value fuel :
  forall n acc,
    (n < 2 ^ N.of_nat fuel)%N ->
    fold_left (fun v c => (36 * v + undigit36 c)%N) (digits36 fuel n acc) 0%N
    = fold_left (fun v c => (36 * v + undigit36 c)%N) acc n.
Proof.
  induction fuel as [|fuel IH]; intros n acc Hn.
  - simpl in *. f_equal. lia.
  - cbn [digits36]. cbv zeta.
    assert (Hmod : (n mod 36 < 36)%N) by (apply N.mod_lt; lia).
    destruct (N.eqb_spec (n / 36) 0) as [Hsmall | Hbig].
    + cbn [fold_left]. rewrite (undigit36_digit36 _ Hmod). f_equal.
      pose proof (N.div_mod n 36). lia.
    + rewrite IH.
      * cbn [fold_left]. rewrite (undigit36_digit36 _ Hmod). f_equal.
        pose proof (N.div_mod n 36). lia.
      * rewrite Nat2N.inj_succ, N.pow_succ_r' in Hn.
        assert (n / 36 <= n / 2)%N
          by (apply N.div_le_compat_l; lia).
        assert (n / 2 < 2 ^ N.of_nat fuel)%N
          by (apply N.Div0.div_lt_upper_bound; lia).
        lia.
Qed.

Lemma pos_lt_pow_size p : (Npos p < 2 ^ N.of_nat (Pos.size_nat p))%N.
Proof.
  induction p as [p IH | p IH |]; cbn [Pos.size_nat];
    rewrite ?Nat2N.inj_succ, ?N.pow_succ_r'; simpl N.of_nat; lia.
Qed.

Lemma value36_toString36 n : 0 <= n -> value36 (toString36 n) = Z.to_N n.
Proof.
  intros Hn. destruct n as [| p | p]; [reflexivity | | lia].
  unfold toString36, value36. rewrite digits36_value; [reflexivity |].
  apply pos_lt_pow_size.
Qed.

Lemma toString36_inj a b :
  0 <= a -> 0 <= b -> toString36 a = toString36 b -> a = b.
Proof.
  intros Ha Hb Heq.
  assert (Hval : Z.to_N a = Z.to_N b)
    by (rewrite <- !value36_toString36 by assumption; rewrite Heq; reflexivity).
  lia.
Qed.

(** Two reads of a clock that moved in between give two identifiers. *)
Lemma getClientIdentifier_distinct env w w' :
  0 <= clock env (reads w) -> 0 <= clock env (reads w') ->
  clock env (reads w) <> clock env (reads w') ->
  result getClientIdentifier env w <> result getClientIdentifier env w'.
Proof.
  intros Hw Hw' Hne Heq. apply Hne.
  unfold result in Heq. rewrite !getClientIdentifier_eq in Heq. cbn [fst] in Heq.
  injection Heq as Heq. apply toString36_inj; assumption.
Qed.

Lemma running_env_running_clock : running_clock running_env.
Proof. split; intros; simpl; lia. Qed.

Lemma keys_from_past_reads_fresh env : keys_from_past_reads env fresh_world.
Proof. intros identifier [a Ha]. vm_compute in Ha. discriminate. Qed.

(** On a running clock the identifier drawn by a login is new to the table. *)
Lemma fresh_identifier_unknown env w :
  running_clock env -> keys_from_past_reads env w ->
  loginAttempts w !! (js "client_" ++ toString36 (clock env (reads w))) = None.
Proof.
  intros [Hpos Hmono] Hkeys.
  destruct (loginAttempts w !! _) as [a|] eqn:Ha; [| reflexivity].
  destruct (Hkeys _ (ex_intro _ a Ha)) as (n & Hn & Heq).
  apply app_inv_head in Heq. apply toString36_inj in Heq; [| apply Hpos ..].
  specialize (Hmono n (reads w) Hn). lia.
Qed.

(** On a running clock, from a table filled by earlier logins only, a login
    is never refused by the throttle, whatever happened before; the table
    stays of that kind. *)
Lemma authenticateUser_running_clock env w email password :
  running_clock env -> keys_from_past_reads env w ->
  result (authenticateUser email password) env w <> Throw RateLimited /\
  keys_from_past_reads env (after (authenticateUser email password) env w).
Proof.
  intros Hclock Hkeys.
  pose proof (fresh_identifier_unknown env w Hclock Hkeys) as Hnone.
  unfold result, after. rewrite authenticateUser_eq. cbv zeta.
  rewrite isRateLimited_eq.
  change (loginAttempts (tick w)) with (loginAttempts w). rewrite Hnone.
  set (identifier := js "client_" ++ toString36 (clock env (reads w))).
  assert (Hpast : forall w1 : World,
            (reads w < reads w1)%nat ->
            (forall other, is_Some (loginAttempts w1 !! other) ->
                           other = identifier \/ is_Some (loginAttempts w !! other)) ->
            keys_from_past_reads env w1).
  { intros w1 Hreads Hsub other Hother.
    destruct (Hsub other Hother) as [-> | Hold].
    - exists (reads w). split; [exact Hreads | reflexivity].
    - destruct (Hkeys other Hold) as (n & Hn & Heq). exists n. split; [lia | exact Heq]. }
  unfold login_after_throttle.
  destruct (negb (validateEmail email)).
  { split; [discriminate |]. apply Hpast; [simpl; lia |]. intros other H; right; exact H. }
  destruct (negb (validatePassword password)).
  { split; [discriminate |]. apply Hpast; [simpl; lia |]. intros other H; right; exact H. }
  destruct (identityProvider env (length (trace (tick w))) email password) as [code|uid].
  - split; [cbn [fst]; destruct (_ || _); discriminate |].
    cbn [snd]. unfold after. rewrite recordLoginAttempt_eq. cbn [snd].
    apply Hpast; [simpl; lia |].
    intros other. simpl. rewrite lookup_insert.
    destruct (decide (identifier = other)) as [<- | _]; [left; reflexivity | right; assumption].
  - split; [discriminate |].
    cbn [snd]. unfold after. rewrite recordLoginAttempt_eq. cbn [snd].
    apply Hpast; [simpl; lia |].
    intros other. simpl. rewrite lookup_delete.
    destruct (decide (identifier = other)) as [<- | _];
      [intros [? ?]; discriminate | right; assumption].
Qed.

(** * The rest of the code *)

(** ** The matcher against the language of a regular expression *)

Lemma matches_eps_inv t : Matches Eps t -> t = [].
Proof. intros H. inversion H. reflexivity. Qed.

Lemma matches_class_inv p t : Matches (Class p) t -> exists c, t = [c] /\ p c = true.
Proof. intros H. inversion H; subst. eauto. Qed.

Lemma matches_cat_inv r s t :
  Matches (Cat r s) t -> exists u v, t = u ++ v /\ Matches r u /\ Matches s v.
Proof. intros H. inversion H; subst. eauto. Qed.

Lemma matches_alt_inv r s t : Matches (Alt r s) t -> Matches r t \/ Matches s t.
Proof. intros H. inversion H; subst; auto. Qed.

Lemma nullable_matches r : nullable r = true <-> Matches r [].
Proof.
  induction r as [| | p | r IHr s IHs | r IHr s IHs | r IHr]; simpl.
  - split; [discriminate | intros H; inversion H].
  - split; [intros _; constructor | reflexivity].
  - split; [discriminate | intros H; inversion H].
  - rewrite andb_true_iff, IHr, IHs. split.
    + intros [Hr Hs]. change (@nil N) with (@nil N ++ []). constructor; assumption.
    + intros H. apply matches_cat_inv in H as (u & v & Heq & Hu & Hv).
      symmetry in Heq. apply app_eq_nil in Heq as [-> ->]. split; assumption.
  - rewrite orb_true_iff, IHr, IHs. split.
    + intros [H | H]; [apply Matches_alt_l | apply Matches_alt_r]; exact H.
    + apply matches_alt_inv.
  - split; [intros _; constructor | reflexivity].
Qed.

Lemma deriv_sound c r : forall s, Matches (deriv c r) s -> Matches r (c :: s).
Proof.
  induction r as [| | p | r IHr s' IHs | r IHr s' IHs | r IHr]; intros s H; simpl in H.
  - inversion H.
  - inversion H.
  - destruct (p c) eqn:Hp; [| inversion H].
    apply matches_eps_inv in H. subst. constructor. exact Hp.
  - assert (Hcat : forall t, Matches (Cat (deriv c r) s') t -> Matches (Cat r s') (c :: t)).
    { intros t Ht. apply matches_cat_inv in Ht as (u & v & -> & Hu & Hv).
      change (c :: u ++ v) with ((c :: u) ++ v). constructor; [apply IHr |]; assumption. }
    destruct (nullable r) eqn:Hnull; [| apply Hcat; exact H].
    apply matches_alt_inv in H as [H | H]; [apply Hcat; exact H |].
    change (c :: s) with ([] ++ c :: s). constructor; [| apply IHs; exact H].
    apply nullable_matches. exact Hnull.
  - apply matches_alt_inv in H as [H | H];
      [apply Matches_alt_l, IHr | apply Matches_alt_r, IHs]; exact H.
  - apply matches_cat_inv in H as (u & v & -> & Hu & Hv).
    change (c :: u ++ v) with ((c :: u) ++ v). constructor; [apply IHr |]; assumption.
Qed.

Lemma deriv_complete r t :
  Matches r t -> forall c s, t = c :: s -> Matches (deriv c r) s.
Proof.
  induction 1 as [| p c0 Hp | r s u v Hu IHu Hv IHv | r s u Hu IHu | r s u Hu IHu
                  | r | r u v Hu IHu Hv IHv]; intros c s0 Heq; simpl.
  - discriminate.
  - injection Heq as -> <-. rewrite Hp. constructor.
  - destruct u as [| c' u'].
    + simpl in Heq. subst v.
      replace (nullable r) with true by (symmetry; apply nullable_matches; exact Hu).
      apply Matches_alt_r. apply IHv. reflexivity.
    + simpl in Heq. injection Heq as -> <-.
      assert (Hcat : Matches (Cat (deriv c r) s) (u' ++ v))
        by (constructor; [apply IHu; reflexivity | exact Hv]).
      destruct (nullable r); [apply Matches_alt_l |]; exact Hcat.
  - apply Matches_alt_l. apply IHu. exact Heq.
  - apply Matches_alt_r. apply IHu. exact Heq.
  - discriminate.
  - destruct u as [| c' u'].
    + simpl in Heq. apply (IHv c s0 Heq).
    + simpl in Heq. injection Heq as -> <-.
      constructor; [apply IHu; reflexivity | exact Hv].
Qed.

(** The matcher decides the language. *)
Lemma regex_test_matches s : forall r, regex_test r s = true <-> Matches r s.
Proof.
  induction s as [| c s IH]; intros r; simpl.
  - apply nullable_matches.
  - rewrite IH. split.
    + apply deriv_sound.
    + intros H. apply (deriv_complete r (c :: s) H c s eq_refl).
Qed.

Lemma matches_star_class p s :
  Matches (Star (Class p)) s <-> forallb p s = true.
Proof.
  split.
  - intros H. remember (Star (Class p)) as r eqn:Hr.
    induction H as [| | | | | r' | r' u v Hu _ Hv IHv]; try discriminate.
    + reflexivity.
    + injection Hr as ->. apply matches_class_inv in Hu as (c & -> & Hc). simpl.
      rewrite Hc, (IHv eq_refl). reflexivity.
  - induction s as [| c s IH]; simpl; intros H.
    + constructor.
    + apply andb_true_iff in H as [Hc Hs].
      change (c :: s) with ([c] ++ s). constructor; [constructor; exact Hc | apply IH, Hs].
Qed.

(** [[class]+] accepts the non-empty strings made of characters of the class. *)
Lemma matches_plus_class p s :
  Matches (Plus (Class p)) s <-> s <> [] /\ forallb p s = true.
Proof.
  unfold Plus. split.
  - intros H. apply matches_cat_inv in H as (u & v & -> & Hu & Hv).
    apply matches_class_inv in Hu as (c & -> & Hc). apply matches_star_class in Hv.
    simpl. split; [discriminate | rewrite Hc, Hv; reflexivity].
  - intros [Hne Hall]. destruct s as [| c s]; [contradiction |].
    simpl in Hall. apply andb_true_iff in Hall as [Hc Hs].
    change (c :: s) with ([c] ++ s).
    constructor; [constructor; exact Hc | apply matches_star_class, Hs].
Qed.

Lemma matches_lit c s : Matches (lit c) s <-> s = [c].
Proof.
  unfold lit. split.
  - intros H. apply matches_class_inv in H as (c' & -> & Hc).
    apply N.eqb_eq in Hc. subst. reflexivity.
  - intros ->. constructor. apply N.eqb_refl.
Qed.

(** X1. [validateEmail] accepts exactly the strings of at most 100 code
    units that split as [local @ domain . tld] with three non-empty parts
    free of white space and of [@]; the domain and the tld may themselves
    contain dots. *)
Theorem validateEmail_shape email :
  validateEmail email = true <->
  (length email <= 100)%nat /\
  exists local domain tld,
    email = local ++ 64%N :: domain ++ 46%N :: tld /\
    (local <> [] /\ forallb not_space_at local = true) /\
    (domain <> [] /\ forallb not_space_at domain = true) /\
    (tld <> [] /\ forallb not_space_at tld = true).
Proof.
  unfold validateEmail, js_length, emailRegex.
  rewrite andb_true_iff, regex_test_matches, Z.leb_le. split.
  - intros [Hmatch Hlen]. split; [lia |].
    apply matches_cat_inv in Hmatch as (local & rest1 & -> & Hlocal & Hrest1).
    apply matches_cat_inv in Hrest1 as (at_sign & rest2 & -> & Hat & Hrest2).
    apply matches_cat_inv in Hrest2 as (domain & rest3 & -> & Hdomain & Hrest3).
    apply matches_cat_inv in Hrest3 as (dot & tld & -> & Hdot & Htld).
    apply matches_lit in Hat, Hdot. subst.
    apply matches_plus_class in Hlocal, Hdomain, Htld.
    exists local, domain, tld. split; [reflexivity |].
    split; [exact Hlocal | split; [exact Hdomain | exact Htld]].
  - intros [Hlen (local & domain & tld & -> & Hlocal & Hdomain & Htld)].
    split; [| lia].
    constructor; [apply matches_plus_class; exact Hlocal |].
    change (64%N :: domain ++ 46%N :: tld) with ([64%N] ++ domain ++ [46%N] ++ tld).
    constructor; [apply matches_lit; reflexivity |].
    constructor; [apply matches_plus_class; exact Hdomain |].
    constructor; [apply matches_lit; reflexivity | apply matches_plus_class; exact Htld].
Qed.

Lemma validateEmail_shape_witness :
  (length (js "a@b.co.uk") <= 100)%nat /\
  exists local domain tld,
    js "a@b.co.uk" = local ++ 64%N :: domain ++ 46%N :: tld /\
    (local <> [] /\ forallb not_space_at local = true) /\
    (domain <> [] /\ forallb not_space_at domain = true) /\
    (tld <> [] /\ forallb not_space_at tld = true).
Proof.
  apply (proj1 (validateEmail_shape (js "a@b.co.uk"))). vm_compute. reflexivity.
Defined.

(** X2. [validateName] accepts exactly the strings of 2 to 50 code units
    made of Latin letters, code units U+0600 to U+06FF and white space:
    one digit, hyphen or apostrophe makes a name invalid, and a name of
    white space only is valid. *)
Theorem validateName_chars name :
  validateName name = true <->
  (2 <= length name <= 50)%nat /\ forallb name_char name = true.
Proof.
  unfold validateName, js_length, nameRegex.
  rewrite !andb_true_iff, regex_test_matches, matches_plus_class, Z.leb_le, Z.leb_le.
  split.
  - intros [[Hlo Hhi] [_ Hall]]. split; [lia | exact Hall].
  - intros [Hlen Hall]. split; [lia |]. split; [| exact Hall].
    destruct name; [simpl in Hlen; lia | discriminate].
Qed.

Lemma validateName_chars_witness :
  validateName (js "   ") = true /\ validateName (js "O'Brien") = false.
Proof.
  split.
  - apply (proj2 (validateName_chars (js "   "))). vm_compute. split; [lia | reflexivity].
  - destruct (validateName (js "O'Brien")) eqn:Hvalid; [| reflexivity].
    apply (proj1 (validateName_chars (js "O'Brien"))) in Hvalid.
    destruct Hvalid as [_ Hchars]. vm_compute in Hchars. discriminate Hchars.
Defined.

(** ** Client identifiers and the throttle on a moving clock *)

(** X3. The client identifier is the clock in another notation: for clock
    values that are not negative, two calls draw the same identifier
    exactly when they read the same millisecond. *)
Theorem client_identifier_follows_clock env w w' :
  0 <= clock env (reads w) -> 0 <= clock env (reads w') ->
  (result getClientIdentifier env w = result getClientIdentifier env w' <->
   clock env (reads w) = clock env (reads w')).
Proof.
  intros Hw Hw'. unfold result. rewrite !getClientIdentifier_eq. cbn [fst]. split.
  - intros Heq. injection Heq as Heq. apply toString36_inj; assumption.
  - intros ->. reflexivity.
Qed.

Lemma client_identifier_follows_clock_witness :
  (result getClientIdentifier running_env fresh_world
   = result getClientIdentifier running_env (tick fresh_world) <->
   clock running_env (reads fresh_world) = clock running_env (reads (tick fresh_world))) /\
  clock running_env (reads fresh_world) <> clock running_env (reads (tick fresh_world)).
Proof.
  split.
  - apply (client_identifier_follows_clock running_env fresh_world (tick fresh_world));
      vm_compute; discriminate.
  - vm_compute. discriminate.
Defined.

(** X4. On a clock that moves forward between any two reads, the throttle
    never refuses a login: starting from a table whose keys were all drawn
    at earlier reads (the empty table is one), no login of any series, with
    any credentials and any answers of the identity provider, ends in
    [RateLimited]. *)
Theorem logins_on_running_clock env attempts :
  running_clock env ->
  forall w,
    keys_from_past_reads env w ->
    Forall (fun r => r <> Throw RateLimited) (run_logins attempts env w).1 /\
    keys_from_past_reads env (run_logins attempts env w).2.
Proof.
  intros Hclock.
  induction attempts as [| [email password] rest IH]; intros w Hkeys.
  - split; [constructor | exact Hkeys].
  - destruct (authenticateUser_running_clock env w email password Hclock Hkeys)
      as [Hnot Hkeys1].
    unfold result, after in Hnot, Hkeys1. cbn [run_logins].
    destruct (authenticateUser email password env w) as [r w1].
    cbn [fst snd] in Hnot, Hkeys1.
    destruct (IH w1 Hkeys1) as [Hrest Hkeys2].
    destruct (run_logins rest env w1) as [rs w2]. cbn [fst snd] in *.
    split; [constructor; assumption | exact Hkeys2].
Qed.

Lemma logins_on_running_clock_witness :
  Forall (fun r => r <> Throw RateLimited)
    (run_logins (repeat (js "a@b.com", js "wrong-password") 7) running_env fresh_world).1 /\
  keys_from_past_reads running_env
    (run_logins (repeat (js "a@b.com", js "wrong-password") 7) running_env fresh_world).2.
Proof.
  apply (logins_on_running_clock running_env
           (repeat (js "a@b.com", js "wrong-password") 7)
           running_env_running_clock fresh_world).
  exact (keys_from_past_reads_fresh running_env).
Defined.

(** ** More on the login procedures *)

Lemma isAdmin_run uid env w :
  isAdmin uid env w =
  (Return (privileged w uid
           && negb (bool_decide (is_Some (lookupError env (length (trace w)))))),
   after (isAdmin uid) env w).
Proof.
  unfold after. rewrite isAdmin_eq.
  destruct (lookupError env (length (trace w))) as [code|] eqn:Hcode.
  - rewrite bool_decide_true by eauto. rewrite andb_false_r. reflexivity.
  - rewrite bool_decide_false by (intros [? ?]; discriminate).
    rewrite andb_true_r. reflexivity.
Qed.

Lemma authenticateAdmin_eq email password env w :
  authenticateAdmin email password env w =
  let identifier := js "client_" ++ toString36 (clock env (reads w)) in
  match isRateLimited identifier env (tick w) with
  | (Return true, w1) => (Throw RateLimited, w1)
  | (Return false, w1) => admin_after_throttle identifier email password env w1
  | (Throw e, w1) => (Throw e, w1)
  end.
Proof.
  unfold authenticateAdmin, admin_after_throttle.
  rewrite (bind_return _ _ _ _ _ _ (getClientIdentifier_eq env w)).
  cbv zeta. unfold bind at 1.
  destruct (isRateLimited _ env (tick w)) as [[[|]|e] w1]; try reflexivity.
  destruct (negb (includes email (js "admin")) && negb (includes email (js "deepbug"))).
  - unfold try_catch, after, bind, throw. run_records. reflexivity.
  - unfold try_catch, bind at 1, signInWithEmailAndPassword.
    destruct (identityProvider env (length (trace w1)) email password) as [code|uid].
    + unfold after, bind, throw. run_records. reflexivity.
    + unfold bind at 1. rewrite isAdmin_run.
      destruct (privileged _ uid && _); cbv beta iota.
      * change (negb true) with false. cbv iota.
        unfold after, bind, ret. run_records. reflexivity.
      * change (negb false) with true. cbv iota. cbv zeta.
        unfold bind at 1, signOut.
        destruct (signOutError env _);
          unfold after, bind, throw; run_records; reflexivity.
Qed.

(** X5. A call refused by the throttle does nothing but read the clock
    twice: it contacts no service, records nothing and leaves the record's
    [lastAttempt] as it was, so attempts made during a lockout do not
    prolong it. This holds for login, privileged login and registration. *)
Theorem blocked_call_changes_nothing b env w identifier w1 name email password :
  throttle_check env w = (Return (identifier, true), w1) ->
  w1 = tick (tick w) /\
  authenticateUser email password env w = (Throw RateLimited, w1) /\
  authenticateAdmin email password env w = (Throw RateLimited, w1) /\
  registerUser name email password b env w = (Thrown RegistrationLimited, w1).
Proof.
  intros Hcheck.
  destruct (throttle_check_inv _ _ _ _ _ Hcheck) as [Hid Hlim].
  assert (Hident : js "client_" ++ toString36 (clock env (reads w)) = identifier)
    by (apply getClientIdentifier_result; unfold result; rewrite Hid; reflexivity).
  split; [| split; [| split]].
  - rewrite isRateLimited_eq in Hlim.
    destruct (loginAttempts (tick w) !! identifier) as [a|]; [| discriminate].
    destruct (LOCKOUT_DURATION <? _); [discriminate |].
    injection Hlim as _ <-. reflexivity.
  - rewrite authenticateUser_eq. cbv zeta. rewrite Hident, Hlim. reflexivity.
  - rewrite authenticateAdmin_eq. cbv zeta. rewrite Hident, Hlim. reflexivity.
  - unfold registerUser, site_bind at 1, lift at 1. rewrite Hid.
    unfold site_bind at 1, lift at 1. rewrite Hlim. reflexivity.
Qed.

Lemma blocked_call_changes_nothing_witness :
  tick (tick blocked_world) = tick (tick blocked_world) /\
  authenticateUser (js "a@b.com") (js "secret") frozen_env blocked_world
  = (Throw RateLimited, tick (tick blocked_world)) /\
  authenticateAdmin (js "a@b.com") (js "secret") frozen_env blocked_world
  = (Throw RateLimited, tick (tick blocked_world)) /\
  registerUser (js "Some Name") (js "a@b.com") (js "secret") plain_backend
    frozen_env blocked_world
  = (Thrown RegistrationLimited, tick (tick blocked_world)).
Proof.
  apply (blocked_call_changes_nothing plain_backend frozen_env blocked_world
           (js "client_rs") (tick (tick blocked_world)) (js "Some Name")
           (js "a@b.com") (js "secret")).
  vm_compute. reflexivity.
Defined.

(** X6. A login refused for the shape of its email or password stops
    before the identity provider is contacted and before anything is
    recorded: the world is the one the throttle check left. Such refusals
    never count towards a lockout. *)
Theorem authenticateUser_invalid_input env w identifier w1 email password :
  throttle_check env w = (Return (identifier, false), w1) ->
  validateEmail email && validatePassword password = false ->
  authenticateUser email password env w =
  (Throw (if validateEmail email then InvalidPassword else InvalidEmail), w1).
Proof.
  intros Hcheck Hinvalid.
  destruct (throttle_check_inv _ _ _ _ _ Hcheck) as [Hid Hlim].
  assert (Hident : js "client_" ++ toString36 (clock env (reads w)) = identifier)
    by (apply getClientIdentifier_result; unfold result; rewrite Hid; reflexivity).
  rewrite authenticateUser_eq. cbv zeta. rewrite Hident, Hlim.
  unfold login_after_throttle.
  destruct (validateEmail email); [| reflexivity].
  simpl in Hinvalid. rewrite Hinvalid. reflexivity.
Qed.

Lemma authenticateUser_invalid_input_witness :
  authenticateUser (js "not-an-email") (js "secret") frozen_env fresh_world
  = (Throw InvalidEmail, tick fresh_world) /\
  authenticateUser (js "a@b.com") (js "12345") frozen_env fresh_world
  = (Throw InvalidPassword, tick fresh_world).
Proof.
  split.
  - apply (authenticateUser_invalid_input frozen_env fresh_world (js "client_rs")
             (tick fresh_world) (js "not-an-email") (js "secret"));
      vm_compute; reflexivity.
  - apply (authenticateUser_invalid_input frozen_env fresh_world (js "client_rs")
             (tick fresh_world) (js "a@b.com") (js "12345"));
      vm_compute; reflexivity.
Defined.

Lemma login_after_throttle_errors identifier email password env w1 e w' :
  login_after_throttle identifier email password env w1 = (Throw e, w') ->
  e = InvalidEmail \/ e = InvalidPassword \/ e = InvalidCredentials \/ e = LoginFailed.
Proof.
  unfold login_after_throttle. intros H.
  destruct (negb (validateEmail email)); [inversion H; auto |].
  destruct (negb (validatePassword password)); [inversion H; auto |].
  destruct (identityProvider env (length (trace w1)) email password);
    [| discriminate].
  destruct (_ || _); inversion H; auto.
Qed.

(** X7. Whatever the identity provider answers, [authenticateUser] returns
    the user or throws one of its own five errors: the provider's
    rejection, with its code, never reaches the caller. *)
Theorem authenticateUser_errors email password env w :
  (exists uid, result (authenticateUser email password) env w = Return uid) \/
  result (authenticateUser email password) env w = Throw RateLimited \/
  result (authenticateUser email password) env w = Throw InvalidEmail \/
  result (authenticateUser email password) env w = Throw InvalidPassword \/
  result (authenticateUser email password) env w = Throw InvalidCredentials \/
  result (authenticateUser email password) env w = Throw LoginFailed.
Proof.
  unfold result. rewrite authenticateUser_eq. cbv zeta.
  set (identifier := js "client_" ++ toString36 (clock env (reads w))).
  destruct (isRateLimited_returns identifier env (tick w)) as [limited ->].
  destruct limited; [auto |].
  destruct (login_after_throttle identifier email password env _) as [[uid|e] w'] eqn:Hrun;
    cbn [fst]; [left; eauto |].
  destruct (login_after_throttle_errors _ _ _ _ _ _ _ Hrun) as [-> | [-> | [-> | ->]]];
    auto 8.
Qed.



Lemma isRateLimited_frame identifier env w :
  firestore (after (isRateLimited identifier) env w) = firestore w /\
  trace (after (isRateLimited identifier) env w) = trace w /\
  currentUser (after (isRateLimited identifier) env w) = currentUser w.
Proof.
  unfold after. rewrite isRateLimited_eq.
  destruct (loginAttempts w !! identifier) as [a|]; [| repeat split].
  destruct (LOCKOUT_DURATION <? _); repeat split.
Qed.

Lemma throttle_check_frame env w identifier limited w1 :
  throttle_check env w = (Return (identifier, limited), w1) ->
  firestore w1 = firestore w /\ trace w1 = trace w /\ currentUser w1 = currentUser w.
Proof.
  intros Hcheck. destruct (throttle_check_inv _ _ _ _ _ Hcheck) as [_ Hlim].
  pose proof (isRateLimited_frame identifier env (tick w)) as Hframe.
  unfold after in Hframe. rewrite Hlim in Hframe. exact Hframe.
Qed.

Lemma throttle_check_returns env w :
  exists identifier limited w1,
    throttle_check env w = (Return (identifier, limited), w1) /\
    identifier = js "client_" ++ toString36 (clock env (reads w)) /\
    isRateLimited identifier env (tick w) = (Return limited, w1).
Proof.
  destruct (isRateLimited_returns (js "client_" ++ toString36 (clock env (reads w)))
              env (tick w)) as [limited Hlim].
  eexists _, limited, _. split; [| split; [reflexivity | exact Hlim]].
  unfold throttle_check.
  rewrite (bind_return _ _ _ _ _ _ (getClientIdentifier_eq env w)).
  rewrite (bind_return _ _ _ _ _ _ Hlim). reflexivity.
Qed.

(** X9. A login that passes the throttle and the validators and is accepted
    by the identity provider returns the user, leaves that user signed in,
    makes the sign-in its only external call and deletes the identifier's
    record, whatever failures it held. *)
Theorem authenticateUser_success env w identifier w1 email password uid :
  throttle_check env w = (Return (identifier, false), w1) ->
  validateEmail email = true -> validatePassword password = true ->
  identityProvider env (length (trace w)) email password = Credential uid ->
  result (authenticateUser email password) env w = Return uid /\
  currentUser (after (authenticateUser email password) env w) = Some uid /\
  trace (after (authenticateUser email password) env w)
  = SignIn email password :: trace w /\
  loginAttempts (after (authenticateUser email password) env w)
  = delete identifier (loginAttempts w1).
Proof.
  intros Hcheck Hemail Hpassword Hreply.
  destruct (throttle_check_inv _ _ _ _ _ Hcheck) as [Hid Hlim].
  destruct (throttle_check_frame _ _ _ _ _ Hcheck) as (_ & Htrace & _).
  assert (Hident : js "client_" ++ toString36 (clock env (reads w)) = identifier)
    by (apply getClientIdentifier_result; unfold result; rewrite Hid; reflexivity).
  unfold result, after. rewrite authenticateUser_eq. cbv zeta. rewrite Hident, Hlim.
  unfold login_after_throttle. rewrite Hemail, Hpassword, Htrace, Hreply.
  unfold after. rewrite recordLoginAttempt_eq. simpl.
  rewrite Htrace. repeat split.
Qed.

Lemma authenticateUser_success_witness :
  result (authenticateUser (js "a@b.com") (js "secret")) accepting_env old_record_world
  = Return (js "u1") /\
  currentUser (after (authenticateUser (js "a@b.com") (js "secret"))
                 accepting_env old_record_world) = Some (js "u1") /\
  trace (after (authenticateUser (js "a@b.com") (js "secret"))
           accepting_env old_record_world)
  = SignIn (js "a@b.com") (js "secret") :: trace old_record_world /\
  loginAttempts (after (authenticateUser (js "a@b.com") (js "secret"))
                   accepting_env old_record_world)
  = delete (js "client_rs")
      (loginAttempts (with_attempts (delete (js "client_rs")) (tick (tick old_record_world)))).
Proof.
  apply (authenticateUser_success accepting_env old_record_world (js "client_rs")
           (with_attempts (delete (js "client_rs")) (tick (tick old_record_world)))
           (js "a@b.com") (js "secret") (js "u1")).
  - vm_compute. reflexivity.
  - vm_compute. reflexivity.
  - vm_compute. reflexivity.
  - reflexivity.
Defined.

(** X10. The lockout window slides inside a login: when the identifier's
    record is older than [LOCKOUT_DURATION], a login that fails at the
    identity provider starts the count again at 1, where
    [recordLoginAttempt] alone would have added to the old count. *)
Theorem authenticateUser_restarts_stale_count env w identifier a email password e w' :
  result getClientIdentifier env w = Return identifier ->
  loginAttempts w !! identifier = Some a ->
  LOCKOUT_DURATION < clock env (S (reads w)) - lastAttempt a ->
  authenticateUser email password env w = (Throw e, w') ->
  credential_failure e ->
  loginAttempts w' !! identifier
  = Some {| count := 1; lastAttempt := clock env (S (S (reads w))) |} /\
  loginAttempts (after (recordLoginAttempt identifier false) env w) !! identifier
  = Some {| count := count a + 1; lastAttempt := clock env (reads w) |}.
Proof.
  intros Hid Ha Hstale Hrun Hfail. split.
  - apply getClientIdentifier_result in Hid.
    rewrite authenticateUser_eq in Hrun. cbv zeta in Hrun.
    rewrite Hid, isRateLimited_eq in Hrun.
    change (loginAttempts (tick w)) with (loginAttempts w) in Hrun.
    change (reads (tick w)) with (S (reads w)) in Hrun.
    rewrite Ha in Hrun.
    replace (LOCKOUT_DURATION <? clock env (S (reads w)) - lastAttempt a) with true in Hrun
      by (symmetry; apply Z.ltb_lt; exact Hstale).
    rewrite (login_after_throttle_failure _ _ _ _ _ _ _ Hrun Hfail).
    unfold after. rewrite recordLoginAttempt_eq. unfold failureCount. simpl.
    rewrite lookup_insert_eq, lookup_delete_eq. reflexivity.
  - unfold after. rewrite recordLoginAttempt_eq. unfold failureCount. simpl.
    rewrite lookup_insert_eq, Ha. reflexivity.
Qed.

Lemma authenticateUser_restarts_stale_count_witness :
  loginAttempts (after (authenticateUser (js "a@b.com") (js "secret"))
                   frozen_env old_record_world) !! js "client_rs"
  = Some {| count := 1; lastAttempt := 1000 |} /\
  loginAttempts (after (recordLoginAttempt (js "client_rs") false)
                   frozen_env old_record_world) !! js "client_rs"
  = Some {| count := 4 + 1; lastAttempt := 1000 |}.
Proof.
  apply (authenticateUser_restarts_stale_count frozen_env old_record_world
           (js "client_rs") {| count := 4; lastAttempt := -900001 |}
           (js "a@b.com") (js "secret") InvalidCredentials).
  - vm_compute. reflexivity.
  - vm_compute. reflexivity.
  - vm_compute. reflexivity.
  - vm_compute. reflexivity.
  - left. reflexivity.
Defined.

(** X11. [authenticateAdmin] never returns [false], and it returns [true]
    only when the email carries a marker, the identity provider accepted
    the credentials for some user, that user has a document under [admins],
    and that user is left signed in. *)
Theorem authenticateAdmin_true_only_for_admins env w email password r :
  result (authenticateAdmin email password) env w = Return r ->
  r = true /\
  includes email (js "admin") || includes email (js "deepbug") = true /\
  exists uid,
    identityProvider env (length (trace w)) email password = Credential uid /\
    privileged w uid = true /\
    currentUser (after (authenticateAdmin email password) env w) = Some uid.
Proof.
  unfold result, after. rewrite authenticateAdmin_eq. cbv zeta.
  destruct (throttle_check_returns env w) as (identifier & limited & w1 & Hcheck & -> & ->).
  destruct (throttle_check_frame _ _ _ _ _ Hcheck) as (Hstore & Htrace & _).
  destruct limited; [discriminate |].
  unfold admin_after_throttle.
  destruct (negb (includes email (js "admin")) && negb (includes email (js "deepbug")))
    eqn:Hmarker; [discriminate |].
  rewrite Htrace.
  destruct (identityProvider env (length (trace w)) email password) as [code|uid];
    [discriminate |].
  cbv zeta.
  destruct (privileged _ uid && _) eqn:Hadmin;
    [| destruct (signOutError env _); discriminate].
  cbn [fst snd]. intros H. injection H as <-. split; [reflexivity |]. split.
  - destruct (includes email (js "admin")), (includes email (js "deepbug"));
      simpl in *; congruence.
  - exists uid. split; [reflexivity |].
    apply andb_true_iff in Hadmin as [Hpriv _]. split.
    + unfold privileged in *. simpl in Hpriv. rewrite Hstore in Hpriv. exact Hpriv.
    + unfold after at 1. rewrite recordLoginAttempt_eq. simpl.
      rewrite (proj1 (proj2 (isAdmin_frame uid env _))). reflexivity.
Qed.

Lemma authenticateAdmin_true_only_for_admins_witness :
  true = true /\
  includes (js "admin@example.com") (js "admin")
  || includes (js "admin@example.com") (js "deepbug") = true /\
  exists uid,
    identityProvider root_env (length (trace sample_world))
      (js "admin@example.com") (js "secret") = Credential uid /\
    privileged sample_world uid = true /\
    currentUser (after (authenticateAdmin (js "admin@example.com") (js "secret"))
                   root_env sample_world) = Some uid.
Proof.
  apply (authenticateAdmin_true_only_for_admins root_env sample_world
           (js "admin@example.com") (js "secret") true).
  vm_compute. reflexivity.
Defined.

(** X12. On the privileged route a rejection by the identity provider is
    thrown to the caller as it is, with the provider's code, and is
    recorded as one failure. *)
Theorem authenticateAdmin_provider_rejection env w identifier w1 email password code :
  throttle_check env w = (Return (identifier, false), w1) ->
  includes email (js "admin") || includes email (js "deepbug") = true ->
  identityProvider env (length (trace w)) email password = Rejected code ->
  result (authenticateAdmin email password) env w = Throw (SdkError code) /\
  trace (after (authenticateAdmin email password) env w)
  = SignIn email password :: trace w /\
  failureCount (after (authenticateAdmin email password) env w) identifier
  = (failureCount w1 identifier + 1)%N.
Proof.
  intros Hcheck Hmarker Hreply.
  destruct (throttle_check_inv _ _ _ _ _ Hcheck) as [Hid Hlim].
  destruct (throttle_check_frame _ _ _ _ _ Hcheck) as (_ & Htrace & _).
  assert (Hident : js "client_" ++ toString36 (clock env (reads w)) = identifier)
    by (apply getClientIdentifier_result; unfold result; rewrite Hid; reflexivity).
  unfold result, after. rewrite authenticateAdmin_eq. cbv zeta. rewrite Hident, Hlim.
  unfold admin_after_throttle.
  replace (negb (includes email (js "admin")) && negb (includes email (js "deepbug")))
    with false
    by (destruct (includes email (js "admin")), (includes email (js "deepbug"));
        simpl in *; congruence).
  rewrite Htrace, Hreply. unfold after. rewrite recordLoginAttempt_eq.
  unfold failureCount. simpl. rewrite Htrace, lookup_insert_eq. repeat split.
Qed.

Lemma authenticateAdmin_provider_rejection_witness :
  result (authenticateAdmin (js "admin@example.com") (js "secret"))
    unknown_user_env fresh_world = Throw (SdkError (js "auth/user-not-found")) /\
  trace (after (authenticateAdmin (js "admin@example.com") (js "secret"))
           unknown_user_env fresh_world)
  = SignIn (js "admin@example.com") (js "secret") :: trace fresh_world /\
  failureCount (after (authenticateAdmin (js "admin@example.com") (js "secret"))
                  unknown_user_env fresh_world) (js "client_rs")
  = (failureCount (tick fresh_world) (js "client_rs") + 1)%N.
Proof.
  apply (authenticateAdmin_provider_rejection unknown_user_env fresh_world
           (js "client_rs") (tick fresh_world) (js "admin@example.com") (js "secret")
           (js "auth/user-not-found")).
  - vm_compute. reflexivity.
  - vm_compute. reflexivity.
  - reflexivity.
Defined.

(** ** Running the writing functions *)

Lemma site_bind_done {A B} (m : Site A) (k : A -> Site B) b env w a w' :
  m b env w = (Done a, w') -> site_bind m k b env w = k a b env w'.
Proof. intros H. unfold site_bind. rewrite H. reflexivity. Qed.

Lemma site_bind_thrown {A B} (m : Site A) (k : A -> Site B) b env w e w' :
  m b env w = (Thrown e, w') -> site_bind m k b env w = (Thrown e, w').
Proof. intros H. unfold site_bind. rewrite H. reflexivity. Qed.

Lemma lift_return {A} (m : M A) b env w a w' :
  m env w = (Return a, w') -> lift m b env w = (Done a, w').
Proof. intros H. unfold lift. rewrite H. reflexivity. Qed.

Lemma verifyResourceOwnership_run userId resourceId collection env w :
  exists allowed,
    verifyResourceOwnership userId resourceId collection env w
    = (Return allowed, after (verifyResourceOwnership userId resourceId collection) env w).
Proof.
  destruct (verifyResourceOwnership_returns userId resourceId collection env w)
    as [allowed Hallowed].
  exists allowed. unfold result, after in *.
  destruct (verifyResourceOwnership userId resourceId collection env w) as [r w'].
  simpl in *. subst r. reflexivity.
Qed.

Lemma isAdmin_store uid env w :
  firestore (after (isAdmin uid) env w) = firestore w.
Proof.
  unfold after. rewrite isAdmin_eq.
  destruct (lookupError env (length (trace w))); reflexivity.
Qed.

Lemma verifyResourceOwnership_store userId resourceId collection env w :
  firestore (after (verifyResourceOwnership userId resourceId collection) env w)
  = firestore w.
Proof.
  unfold after. rewrite verifyResourceOwnership_eq.
  destruct (lookupError env (length (trace w))); [reflexivity |].
  destruct (firestore w !! (collection, resourceId)) as [data|]; [| reflexivity].
  destruct (strict_eq_string _ _); [reflexivity |].
  apply (isAdmin_store userId env (log (GetDoc collection resourceId) w)).
Qed.

(** The shape shared by the guarded writes: ask the guard, refuse or write,
    and turn every error into the function's own failure. *)
Lemma guarded_write_run (guard : M bool) (write : Site unit) (action : Action)
    b env w allowed w1 :
  guard env w = (Return allowed, w1) ->
  site_try
    (site_bind (lift guard)
       (fun allowed => if negb allowed then site_throw (Denied action) else write))
    (fun _ => site_bind (lift console_error) (fun _ => site_throw (Failed action)))
    b env w
  = if allowed
    then match write b env w1 with
         | (Done u, w') => (Done u, w')
         | (Thrown _, w') => (Thrown (Failed action), log ConsoleError w')
         end
    else (Thrown (Failed action), log ConsoleError w1).
Proof.
  intros Hguard. unfold site_try.
  rewrite (site_bind_done _ _ _ _ _ _ _ (lift_return _ _ _ _ _ _ Hguard)).
  destruct allowed; cbn [negb].
  - destruct (write b env w1) as [[u|e] w']; reflexivity.
  - reflexivity.
Qed.

Lemma deleteDoc_run collection id b env w :
  deleteDoc collection id b env w =
  match writeError b w with
  | Some code => (Thrown (Raised (SdkError code)), w)
  | None => (Done tt, with_firestore (delete (collection, id)) w)
  end.
Proof. reflexivity. Qed.

(** X13. A principal for whom [verifyResourceOwnership] answers [false]
    cannot change or remove an article: [updateArticle] and [deleteArticle]
    leave the store as it was, and what they throw is the generic failure
    of the operation, not the refusal. *)
Theorem unauthorized_article_write b env w articleId userId updateData :
  result (verifyResourceOwnership userId articleId (js "articles")) env w
  = Return false ->
  refused_with (Failed UpdateArticle) (updateArticle articleId userId updateData) b env w /\
  refused_with (Failed DeleteArticle) (deleteArticle articleId userId) b env w.
Proof.
  intros Hdenied.
  destruct (verifyResourceOwnership_run userId articleId (js "articles") env w)
    as [allowed Hrun].
  assert (allowed = false) as ->
    by (unfold result in Hdenied; rewrite Hrun in Hdenied; injection Hdenied; auto).
  unfold refused_with, outcome, world_after, updateArticle, deleteArticle.
  rewrite !(guarded_write_run _ _ _ _ _ _ _ _ Hrun). cbn [fst snd].
  pose proof (verifyResourceOwnership_store userId articleId (js "articles") env w).
  repeat split; assumption.
Qed.

Lemma unauthorized_article_write_witness :
  refused_with (Failed UpdateArticle)
    (updateArticle (js "a1") (js "u1") takeover_update) plain_backend frozen_env site_world /\
  refused_with (Failed DeleteArticle)
    (deleteArticle (js "a1") (js "u1")) plain_backend frozen_env site_world.
Proof.
  apply (unauthorized_article_write plain_backend frozen_env site_world
           (js "a1") (js "u1") takeover_update).
  vm_compute. reflexivity.
Defined.

(** X14. The same for projects: without a [true] from
    [verifyResourceOwnership], [updateProject] and [deleteProject] leave
    the store as it was and throw the generic failure. *)
Theorem unauthorized_project_write b env w projectId userId updateData :
  result (verifyResourceOwnership userId projectId (js "projects")) env w
  = Return false ->
  refused_with (Failed UpdateProject) (updateProject projectId userId updateData) b env w /\
  refused_with (Failed DeleteProject) (deleteProject projectId userId) b env w.
Proof.
  intros Hdenied.
  destruct (verifyResourceOwnership_run userId projectId (js "projects") env w)
    as [allowed Hrun].
  assert (allowed = false) as ->
    by (unfold result in Hdenied; rewrite Hrun in Hdenied; injection Hdenied; auto).
  unfold refused_with, outcome, world_after, updateProject, deleteProject.
  rewrite !(guarded_write_run _ _ _ _ _ _ _ _ Hrun). cbn [fst snd].
  pose proof (verifyResourceOwnership_store userId projectId (js "projects") env w).
  repeat split; assumption.
Qed.

Lemma unauthorized_project_write_witness :
  refused_with (Failed UpdateProject)
    (updateProject (js "p1") (js "u1") rename_project) plain_backend frozen_env site_world /\
  refused_with (Failed DeleteProject)
    (deleteProject (js "p1") (js "u1")) plain_backend frozen_env site_world.
Proof.
  apply (unauthorized_project_write plain_backend frozen_env site_world
           (js "p1") (js "u1") rename_project).
  vm_compute. reflexivity.
Defined.

(** X15. Only administrators may delete chat messages or change the chat
    settings: when [isAdmin] answers [false], [deleteChatMessage] and
    [updateChatSettings] leave the store as it was, also for the author of
    the message. *)
Theorem admin_only_writes_refuse b env w messageId userId isEnabled :
  result (isAdmin userId) env w = Return false ->
  refused_with (Failed DeleteChatMessage) (deleteChatMessage messageId userId) b env w /\
  refused_with (Failed UpdateChatSettings) (updateChatSettings userId isEnabled) b env w.
Proof.
  intros Hdenied.
  assert (Hrun : isAdmin userId env w = (Return false, after (isAdmin userId) env w)).
  { unfold result, after in *. destruct (isAdmin userId env w) as [r w'].
    simpl in *. subst r. reflexivity. }
  unfold refused_with, outcome, world_after, deleteChatMessage, updateChatSettings.
  rewrite !(guarded_write_run _ _ _ _ _ _ _ _ Hrun). cbn [fst snd].
  pose proof (isAdmin_store userId env w).
  repeat split; assumption.
Qed.

Lemma admin_only_writes_refuse_witness :
  refused_with (Failed DeleteChatMessage)
    (deleteChatMessage (js "m1") (js "u2")) plain_backend frozen_env site_world /\
  refused_with (Failed UpdateChatSettings)
    (updateChatSettings (js "u2") false) plain_backend frozen_env site_world.
Proof.
  apply (admin_only_writes_refuse plain_backend frozen_env site_world
           (js "m1") (js "u2") false).
  vm_compute. reflexivity.
Defined.

Lemma updateDoc_run collection id changes b env w :
  updateDoc collection id changes b env w =
  match writeError b w with
  | Some code => (Thrown (Raised (SdkError code)), w)
  | None =>
      match firestore w !! (collection, id) with
      | None => (Thrown (Raised (SdkError (js "not-found"))), w)
      | Some stored =>
          (Done tt, with_firestore (insert (collection, id) (changes ∪ stored)) w)
      end
  end.
Proof. reflexivity. Qed.

(** X16. The guarded writes of the database module either complete or throw
    the generic failure of the operation: neither the refusal nor a
    rejection by the store, with its code, reaches the caller. *)
Theorem guarded_writes_errors b env w resourceId userId articleData projectData isEnabled :
  (outcome (updateArticle resourceId userId articleData) b env w = Done tt \/
   outcome (updateArticle resourceId userId articleData) b env w
   = Thrown (Failed UpdateArticle)) /\
  (outcome (deleteArticle resourceId userId) b env w = Done tt \/
   outcome (deleteArticle resourceId userId) b env w = Thrown (Failed DeleteArticle)) /\
  (outcome (updateProject resourceId userId projectData) b env w = Done tt \/
   outcome (updateProject resourceId userId projectData) b env w
   = Thrown (Failed UpdateProject)) /\
  (outcome (deleteProject resourceId userId) b env w = Done tt \/
   outcome (deleteProject resourceId userId) b env w = Thrown (Failed DeleteProject)) /\
  (outcome (deleteChatMessage resourceId userId) b env w = Done tt \/
   outcome (deleteChatMessage resourceId userId) b env w
   = Thrown (Failed DeleteChatMessage)) /\
  (outcome (updateChatSettings userId isEnabled) b env w = Done tt \/
   outcome (updateChatSettings userId isEnabled) b env w
   = Thrown (Failed UpdateChatSettings)).
Proof.
  assert (Hshape : forall (guard : M bool) (write : Site unit) action allowed w1,
            guard env w = (Return allowed, w1) ->
            let m := site_try
                       (site_bind (lift guard)
                          (fun allowed =>
                             if negb allowed then site_throw (Denied action) else write))
                       (fun _ => site_bind (lift console_error)
                                   (fun _ => site_throw (Failed action))) in
            outcome m b env w = Done tt \/ outcome m b env w = Thrown (Failed action)).
  { intros guard write action allowed w1 Hguard m. unfold outcome, m.
    rewrite (guarded_write_run _ _ _ _ _ _ _ _ Hguard).
    destruct allowed; [| right; reflexivity].
    destruct (write b env w1) as [[[]|e] w']; [left | right]; reflexivity. }
  destruct (verifyResourceOwnership_run userId resourceId (js "articles") env w)
    as [okA HrunA].
  destruct (verifyResourceOwnership_run userId resourceId (js "projects") env w)
    as [okP HrunP].
  pose proof (isAdmin_run userId env w) as Hadmin.
  repeat split;
    first [ exact (Hshape _ _ _ _ _ HrunA)
          | exact (Hshape _ _ _ _ _ HrunP)
          | exact (Hshape _ _ _ _ _ Hadmin) ].
Qed.

(** X17. When [verifyResourceOwnership] answers [true] and the store carries
    out the write, [deleteArticle] removes the document and nothing else;
    from then on [verifyResourceOwnership] answers [false] for that article
    to everyone, in every environment. *)
Theorem deleteArticle_removes b env w articleId userId :
  result (verifyResourceOwnership userId articleId (js "articles")) env w = Return true ->
  writeError b (after (verifyResourceOwnership userId articleId (js "articles")) env w)
  = None ->
  outcome (deleteArticle articleId userId) b env w = Done tt /\
  firestore (world_after (deleteArticle articleId userId) b env w)
  = delete (js "articles", articleId) (firestore w) /\
  forall env' anyone,
    result (verifyResourceOwnership anyone articleId (js "articles")) env'
      (world_after (deleteArticle articleId userId) b env w) = Return false.
Proof.
  intros Hallowed Hwrite.
  destruct (verifyResourceOwnership_run userId articleId (js "articles") env w)
    as [allowed Hrun].
  assert (allowed = true) as ->
    by (unfold result in Hallowed; rewrite Hrun in Hallowed; injection Hallowed; auto).
  assert (Hstore : firestore (world_after (deleteArticle articleId userId) b env w)
                   = delete (js "articles", articleId) (firestore w)).
  { unfold world_after, deleteArticle.
    rewrite (guarded_write_run _ _ _ _ _ _ _ _ Hrun), deleteDoc_run, Hwrite.
    cbn [snd]. unfold with_firestore. cbn [firestore].
    rewrite verifyResourceOwnership_store. reflexivity. }
  split; [| split; [exact Hstore |]].
  - unfold outcome, deleteArticle.
    rewrite (guarded_write_run _ _ _ _ _ _ _ _ Hrun), deleteDoc_run, Hwrite.
    reflexivity.
  - intros env' anyone. unfold result.
    rewrite verifyResourceOwnership_eq, Hstore, lookup_delete_eq.
    destruct (lookupError env' _); reflexivity.
Qed.

Lemma deleteArticle_removes_witness :
  outcome (deleteArticle (js "a1") (js "u2")) plain_backend frozen_env site_world
  = Done tt /\
  firestore (world_after (deleteArticle (js "a1") (js "u2")) plain_backend
               frozen_env site_world)
  = delete (js "articles", js "a1") (firestore site_world) /\
  forall env' anyone,
    result (verifyResourceOwnership anyone (js "a1") (js "articles")) env'
      (world_after (deleteArticle (js "a1") (js "u2")) plain_backend frozen_env site_world)
    = Return false.
Proof.
  apply (deleteArticle_removes plain_backend frozen_env site_world (js "a1") (js "u2")).
  - vm_compute. reflexivity.
  - reflexivity.
Defined.

Lemma set_if_truthy_other (name : jsstring) (value : option jsstring)
    (convert : jsstring -> jsstring) (data : DocumentData) (key : jsstring) :
  key <> name -> set_if_truthy name value convert data !! key = data !! key.
Proof.
  intros Hne. unfold set_if_truthy.
  destruct value as [s|]; [| reflexivity].
  destruct (truthy s); [| reflexivity].
  apply lookup_insert_ne. congruence.
Qed.

Ltac distinct_names :=
  let H := fresh in intros H; vm_compute in H; discriminate H.

(** The world an update leaves: the store is untouched, or the one
    document gets the changes laid over its stored fields. *)
Lemma guarded_update_store (guard : M bool) (action : Action)
    (collection id : jsstring) (changes : Backend -> World -> DocumentData)
    (b : Backend) (env : Env) (w : World) :
  (forall w0, exists allowed, guard env w0 = (Return allowed, after guard env w0)) ->
  firestore (after guard env w) = firestore w ->
  let m := site_try
             (site_bind (lift guard)
                (fun allowed =>
                   if negb allowed then site_throw (Denied action)
                   else fun b env w => updateDoc collection id (changes b w) b env w))
             (fun _ => site_bind (lift console_error)
                         (fun _ => site_throw (Failed action))) in
  firestore (world_after m b env w) = firestore w \/
  exists stored w1,
    firestore w !! (collection, id) = Some stored /\
    outcome m b env w = Done tt /\
    firestore (world_after m b env w)
    = <[(collection, id) := changes b w1 ∪ stored]> (firestore w).
Proof.
  intros Hguard Hframe m. unfold world_after, outcome, m.
  destruct (Hguard w) as [allowed Hrun].
  rewrite (guarded_write_run _ _ _ _ _ _ _ _ Hrun).
  destruct allowed; [| left; exact Hframe].
  rewrite updateDoc_run.
  destruct (writeError b _); [left; exact Hframe |].
  rewrite Hframe.
  destruct (firestore w !! (collection, id)) as [stored|] eqn:Hstored;
    [| left; exact Hframe].
  right. exists stored, (after guard env w).
  split; [reflexivity |]. split; [reflexivity |].
  cbn [snd]. unfold with_firestore. cbn [firestore]. rewrite Hframe. reflexivity.
Qed.

Lemma owns_after_update (w w' : World) (collection id : jsstring)
    (changes stored : DocumentData) :
  firestore w !! (collection, id) = Some stored ->
  firestore w' = <[(collection, id) := changes ∪ stored]> (firestore w) ->
  changes !! js "authorId" = None ->
  collection <> js "admins" ->
  forall principal resourceId resourceClass,
    owns w' principal resourceId resourceClass = owns w principal resourceId resourceClass /\
    privileged w' principal = privileged w principal.
Proof.
  intros Hstored Hstore Hchanges Hcollection principal resourceId resourceClass.
  unfold owns, privileged. rewrite Hstore. split.
  - destruct (decide ((collection, id) = (resourceClass, resourceId))) as [Heq | Hne].
    + rewrite <- Heq, lookup_insert_eq, Hstored. unfold field.
      rewrite lookup_union_r by exact Hchanges. reflexivity.
    + rewrite lookup_insert_ne by exact Hne. reflexivity.
  - rewrite lookup_insert_ne by congruence. reflexivity.
Qed.

(** X18. An update cannot transfer a resource: after [updateArticle] or
    [updateProject], with any data and any outcome, every resource has the
    owner it had and the privileged set is the same. An [authorId] passed
    in the update data is ignored. *)
Theorem updates_keep_ownership b env w id userId articleData projectData
    principal resourceId resourceClass :
  (owns (world_after (updateArticle id userId articleData) b env w)
     principal resourceId resourceClass
   = owns w principal resourceId resourceClass /\
   privileged (world_after (updateArticle id userId articleData) b env w) principal
   = privileged w principal) /\
  (owns (world_after (updateProject id userId projectData) b env w)
     principal resourceId resourceClass
   = owns w principal resourceId resourceClass /\
   privileged (world_after (updateProject id userId projectData) b env w) principal
   = privileged w principal).
Proof.
  split.
  - destruct (guarded_update_store
                (verifyResourceOwnership userId id (js "articles")) UpdateArticle
                (js "articles") id
                (fun b w =>
                   set_if_truthy (js "category") (new_category articleData) Datatypes.id
                     (set_if_truthy (js "imageUrl") (new_imageUrl articleData) (sanitizeInput b)
                        (set_if_truthy (js "content") (new_content articleData) (sanitizeInput b)
                           (set_if_truthy (js "title") (new_title articleData) (sanitizeInput b)
                              {[js "updatedAt" := serverTimestamp b w]}))))
                b env w
                (fun w0 => verifyResourceOwnership_run userId id (js "articles") env w0)
                (verifyResourceOwnership_store userId id (js "articles") env w))
      as [Hsame | (stored & w1 & Hstored & _ & Hstore)].
    + unfold owns, privileged. fold (updateArticle id userId articleData) in Hsame.
      rewrite Hsame. split; reflexivity.
    + fold (updateArticle id userId articleData) in Hstore.
      apply (owns_after_update w _ _ _ _ _ Hstored Hstore); [| distinct_names].
      rewrite !set_if_truthy_other by distinct_names.
      apply lookup_singleton_ne. distinct_names.
  - destruct (guarded_update_store
                (verifyResourceOwnership userId id (js "projects")) UpdateProject
                (js "projects") id
                (fun b w =>
                   set_if_truthy (js "imageUrl") (new_project_imageUrl projectData) (sanitizeInput b)
                     (set_if_truthy (js "link") (new_link projectData) (sanitizeInput b)
                        (set_if_truthy (js "description") (new_description projectData) (sanitizeInput b)
                           (set_if_truthy (js "name") (new_name projectData) (sanitizeInput b)
                              {[js "updatedAt" := serverTimestamp b w]}))))
                b env w
                (fun w0 => verifyResourceOwnership_run userId id (js "projects") env w0)
                (verifyResourceOwnership_store userId id (js "projects") env w))
      as [Hsame | (stored & w1 & Hstored & _ & Hstore)].
    + unfold owns, privileged. fold (updateProject id userId projectData) in Hsame.
      rewrite Hsame. split; reflexivity.
    + fold (updateProject id userId projectData) in Hstore.
      apply (owns_after_update w _ _ _ _ _ Hstored Hstore); [| distinct_names].
      rewrite !set_if_truthy_other by distinct_names.
      apply lookup_singleton_ne. distinct_names.
Qed.

Lemma field_union (changes stored : DocumentData) (name : jsstring) :
  field (changes ∪ stored) name = from_option Datatypes.id (field stored name) (changes !! name).
Proof.
  unfold field. rewrite lookup_union.
  destruct (changes !! name), (stored !! name); reflexivity.
Qed.

Lemma set_if_truthy_lookup (name : jsstring) (value : option jsstring)
    (convert : jsstring -> jsstring) (data : DocumentData) :
  data !! name = None ->
  forall stored : Value,
    from_option Datatypes.id stored (set_if_truthy name value convert data !! name)
    = updated_field value convert stored.
Proof.
  intros Hnone stored. unfold set_if_truthy, updated_field.
  destruct value as [s|]; [| rewrite Hnone; reflexivity].
  destruct (truthy s); [| rewrite Hnone; reflexivity].
  rewrite lookup_insert_eq. reflexivity.
Qed.

(** X19. What a permitted [updateArticle] writes: title, content and image
    address take the sanitized new value when one is given and is not
    empty, the category takes a non-empty new value as it is, [updatedAt]
    takes the server's time, and every other field, [authorId] and
    [createdAt] among them, keeps its stored value. An empty string never
    clears a field. *)
Theorem updateArticle_fields b env w articleId userId updateData stored :
  result (verifyResourceOwnership userId articleId (js "articles")) env w = Return true ->
  firestore w !! (js "articles", articleId) = Some stored ->
  writeError b (after (verifyResourceOwnership userId articleId (js "articles")) env w)
  = None ->
  outcome (updateArticle articleId userId updateData) b env w = Done tt /\
  exists updated,
    firestore (world_after (updateArticle articleId userId updateData) b env w)
    = <[(js "articles", articleId) := updated]> (firestore w) /\
    field updated (js "title")
    = updated_field (new_title updateData) (sanitizeInput b) (field stored (js "title")) /\
    field updated (js "content")
    = updated_field (new_content updateData) (sanitizeInput b) (field stored (js "content")) /\
    field updated (js "imageUrl")
    = updated_field (new_imageUrl updateData) (sanitizeInput b) (field stored (js "imageUrl")) /\
    field updated (js "category")
    = updated_field (new_category updateData) Datatypes.id (field stored (js "category")) /\
    field updated (js "updatedAt")
    = serverTimestamp b
        (after (verifyResourceOwnership userId articleId (js "articles")) env w) /\
    forall name,
      name <> js "title" -> name <> js "content" -> name <> js "imageUrl" ->
      name <> js "category" -> name <> js "updatedAt" ->
      updated !! name = stored !! name.
Proof.
  intros Hallowed Hstored Hwrite.
  destruct (verifyResourceOwnership_run userId articleId (js "articles") env w)
    as [allowed Hrun].
  assert (allowed = true) as ->
    by (unfold result in Hallowed; rewrite Hrun in Hallowed; injection Hallowed; auto).
  pose proof (verifyResourceOwnership_store userId articleId (js "articles") env w)
    as Hframe.
  unfold outcome, world_after, updateArticle.
  rewrite (guarded_write_run _ _ _ _ _ _ _ _ Hrun), updateDoc_run, Hwrite, Hframe, Hstored.
  cbn [fst snd]. split; [reflexivity |].
  eexists. split; [unfold with_firestore; cbn [firestore]; rewrite Hframe; reflexivity |].
  repeat split.
  - rewrite field_union, !set_if_truthy_other by distinct_names.
    apply set_if_truthy_lookup. apply lookup_singleton_ne. distinct_names.
  - rewrite field_union, !set_if_truthy_other by distinct_names.
    apply set_if_truthy_lookup.
    rewrite set_if_truthy_other by distinct_names.
    apply lookup_singleton_ne. distinct_names.
  - rewrite field_union, !set_if_truthy_other by distinct_names.
    apply set_if_truthy_lookup.
    rewrite !set_if_truthy_other by distinct_names.
    apply lookup_singleton_ne. distinct_names.
  - rewrite field_union.
    apply set_if_truthy_lookup.
    rewrite !set_if_truthy_other by distinct_names.
    apply lookup_singleton_ne. distinct_names.
  - rewrite field_union, !set_if_truthy_other by distinct_names.
    rewrite lookup_singleton_eq. reflexivity.
  - intros name Htitle Hcontent Himage Hcategory Hupdated.
    rewrite lookup_union_r; [reflexivity |].
    rewrite !set_if_truthy_other by assumption.
    apply lookup_singleton_ne. congruence.
Qed.

Lemma updateArticle_fields_witness :
  outcome (updateArticle (js "a1") (js "u2") takeover_update) plain_backend
    frozen_env site_world = Done tt /\
  exists updated,
    firestore (world_after (updateArticle (js "a1") (js "u2") takeover_update)
                 plain_backend frozen_env site_world)
    = <[(js "articles", js "a1") := updated]> (firestore site_world) /\
    field updated (js "title")
    = updated_field (new_title takeover_update) (sanitizeInput plain_backend)
        (field {[js "authorId" := VString (js "u2")]} (js "title")) /\
    field updated (js "content")
    = updated_field (new_content takeover_update) (sanitizeInput plain_backend)
        (field {[js "authorId" := VString (js "u2")]} (js "content")) /\
    field updated (js "imageUrl")
    = updated_field (new_imageUrl takeover_update) (sanitizeInput plain_backend)
        (field {[js "authorId" := VString (js "u2")]} (js "imageUrl")) /\
    field updated (js "category")
    = updated_field (new_category takeover_update) Datatypes.id
        (field {[js "authorId" := VString (js "u2")]} (js "category")) /\
    field updated (js "updatedAt")
    = serverTimestamp plain_backend
        (after (verifyResourceOwnership (js "u2") (js "a1") (js "articles"))
           frozen_env site_world) /\
    forall name,
      name <> js "title" -> name <> js "content" -> name <> js "imageUrl" ->
      name <> js "category" -> name <> js "updatedAt" ->
      updated !! name = ({[js "authorId" := VString (js "u2")]} : DocumentData) !! name.
Proof.
  apply (updateArticle_fields plain_backend frozen_env site_world (js "a1") (js "u2")
           takeover_update {[js "authorId" := VString (js "u2")]}).
  - vm_compute. reflexivity.
  - vm_compute. reflexivity.
  - reflexivity.
Defined.

(** ** Chat settings and bans *)

Lemma getChatSettings_eq env w :
  getChatSettings env w =
  match lookupError env (length (trace w)) with
  | Some _ =>
      (Return default_chat_settings,
       log ConsoleError (log (GetDoc (js "settings") (js "chat")) w))
  | None =>
      (Return (default default_chat_settings (firestore w !! (js "settings", js "chat"))),
       log (GetDoc (js "settings") (js "chat")) w)
  end.
Proof.
  unfold getChatSettings, try_catch, bind, getDoc, console_error, modify, ret.
  destruct (lookupError env (length (trace w))); [reflexivity |].
  destruct (firestore w !! (js "settings", js "chat")); reflexivity.
Qed.

Lemma isUserBannedFromChat_eq userId env w :
  isUserBannedFromChat userId env w =
  match lookupError env (length (trace w)) with
  | Some _ => (Return false, log ConsoleError (log (GetDoc (js "users") userId) w))
  | None =>
      (Return match firestore w !! (js "users", userId) with
              | Some userData =>
                  strict_eq_bool (field userData (js "isBannedFromChat")) true
              | None => false
              end,
       log (GetDoc (js "users") userId) w)
  end.
Proof.
  unfold isUserBannedFromChat, try_catch, bind, getDoc, console_error, modify, ret.
  destruct (lookupError env (length (trace w))); [reflexivity |].
  destruct (firestore w !! (js "users", userId)); reflexivity.
Qed.

(** X20. The two moderation reads never throw and fail open: when the store
    lookup rejects, [isUserBannedFromChat] answers [false] and
    [getChatSettings] answers that the chat is enabled, whatever the store
    holds; [isUserBannedFromChat] answers [true] only for a stored
    [isBannedFromChat] that is the boolean [true]. *)
Theorem moderation_reads_fail_open userId env w :
  (exists banned, result (isUserBannedFromChat userId) env w = Return banned) /\
  (exists settings, result getChatSettings env w = Return settings) /\
  (is_Some (lookupError env (length (trace w))) ->
   result (isUserBannedFromChat userId) env w = Return false /\
   result getChatSettings env w = Return default_chat_settings) /\
  (result (isUserBannedFromChat userId) env w = Return true ->
   exists userData,
     firestore w !! (js "users", userId) = Some userData /\
     userData !! js "isBannedFromChat" = Some (VBool true)).
Proof.
  unfold result. rewrite isUserBannedFromChat_eq, getChatSettings_eq.
  destruct (lookupError env (length (trace w))) as [code|]; cbn [fst].
  - split; [eauto |]. split; [eauto |]. split; [auto | discriminate].
  - split; [eauto |]. split; [eauto |]. split; [intros [? ?]; discriminate |].
    destruct (firestore w !! (js "users", userId)) as [userData|]; [| discriminate].
    intros Hbanned. injection Hbanned as Hbanned. exists userData. split; [reflexivity |].
    unfold field in Hbanned.
    destruct (userData !! js "isBannedFromChat") as [[| | [|] | | |]|];
      try discriminate. reflexivity.
Qed.

Lemma moderation_reads_fail_open_witness :
  result (isUserBannedFromChat (js "u2")) offline_env closed_chat_world = Return false /\
  result getChatSettings offline_env closed_chat_world = Return default_chat_settings /\
  exists userData,
    firestore closed_chat_world !! (js "users", js "u2") = Some userData /\
    userData !! js "isBannedFromChat" = Some (VBool true).
Proof.
  destruct (moderation_reads_fail_open (js "u2") offline_env closed_chat_world)
    as (_ & _ & Hopen & _).
  destruct (moderation_reads_fail_open (js "u2") frozen_env closed_chat_world)
    as (_ & _ & _ & Hsound).
  destruct Hopen as [Hbanned Hsettings]; [eexists; reflexivity |].
  split; [exact Hbanned |]. split; [exact Hsettings |].
  apply Hsound. vm_compute. reflexivity.
Defined.

(** X21. While the settings document is missing the chat cannot be closed:
    [updateChatSettings] fails for everyone, administrators included,
    leaving the store as it was, and [getChatSettings] keeps answering that
    the chat is enabled. *)
Theorem missing_chat_settings b env w userId isEnabled :
  firestore w !! (js "settings", js "chat") = None ->
  refused_with (Failed UpdateChatSettings) (updateChatSettings userId isEnabled) b env w /\
  forall env',
    result getChatSettings env'
      (world_after (updateChatSettings userId isEnabled) b env w)
    = Return default_chat_settings.
Proof.
  intros Hmissing.
  pose proof (isAdmin_run userId env w) as Hrun.
  pose proof (isAdmin_store userId env w) as Hframe.
  assert (Hrefused : refused_with (Failed UpdateChatSettings)
                       (updateChatSettings userId isEnabled) b env w).
  { unfold refused_with, outcome, world_after, updateChatSettings.
    rewrite (guarded_write_run _ _ _ _ _ _ _ _ Hrun), updateDoc_run, Hframe, Hmissing.
    destruct (privileged w userId && _); [| split; [reflexivity | exact Hframe]].
    destruct (writeError b _); split; first [reflexivity | exact Hframe]. }
  split; [exact Hrefused |].
  intros env'. unfold result. rewrite getChatSettings_eq.
  destruct Hrefused as [_ ->]. rewrite Hmissing.
  destruct (lookupError env' _); reflexivity.
Qed.

Lemma missing_chat_settings_witness :
  refused_with (Failed UpdateChatSettings)
    (updateChatSettings (js "root") false) plain_backend frozen_env site_world /\
  forall env',
    result getChatSettings env'
      (world_after (updateChatSettings (js "root") false) plain_backend frozen_env
         site_world)
    = Return default_chat_settings.
Proof.
  apply (missing_chat_settings plain_backend frozen_env site_world (js "root") false).
  vm_compute. reflexivity.
Defined.

Lemma new_Date_eq env w :
  new_Date env w = (Return (VObject (Z.to_nat (clock env (reads w)))), tick w).
Proof. reflexivity. Qed.

Lemma banUserFromChat_denied_run b env w adminId userId :
  result (isAdmin adminId) env w = Return false ->
  banUserFromChat adminId userId b env w
  = (Thrown ActionDenied, after (isAdmin adminId) env w).
Proof.
  intros Hdenied.
  assert (Hrun : isAdmin adminId env w = (Return false, after (isAdmin adminId) env w)).
  { unfold result, after in *. destruct (isAdmin adminId env w) as [r w'].
    simpl in *. subst r. reflexivity. }
  unfold banUserFromChat.
  rewrite (site_bind_done _ _ _ _ _ _ _ (lift_return _ _ _ _ _ _ Hrun)).
  reflexivity.
Qed.

(** X22. Only an administrator can ban: when [isAdmin] answers [false] for
    the caller, [banUserFromChat] throws its refusal and the store stays as
    it was. *)
Theorem banUserFromChat_denied b env w adminId userId :
  result (isAdmin adminId) env w = Return false ->
  refused_with ActionDenied (banUserFromChat adminId userId) b env w.
Proof.
  intros Hdenied. unfold refused_with, outcome, world_after.
  rewrite (banUserFromChat_denied_run b env w adminId userId Hdenied).
  cbn [fst snd]. split; [reflexivity | apply isAdmin_store].
Qed.

Lemma banUserFromChat_denied_witness :
  refused_with ActionDenied (banUserFromChat (js "u1") (js "u2"))
    plain_backend frozen_env site_world.
Proof.
  apply (banUserFromChat_denied plain_backend frozen_env site_world (js "u1") (js "u2")).
  vm_compute. reflexivity.
Defined.

Lemma banUserFromChat_allowed_run b env w adminId userId :
  result (isAdmin adminId) env w = Return true ->
  banUserFromChat adminId userId b env w =
  updateDoc (js "users") userId
    (<[js "isBannedFromChat" := VBool true]>
       (<[js "bannedAt" := VObject (Z.to_nat (clock env (reads w)))]>
          {[js "bannedBy" := VString adminId]}))
    b env (tick (after (isAdmin adminId) env w)).
Proof.
  intros Hallowed.
  assert (Hrun : isAdmin adminId env w = (Return true, after (isAdmin adminId) env w)).
  { unfold result, after in *. destruct (isAdmin adminId env w) as [r w'].
    simpl in *. subst r. reflexivity. }
  unfold banUserFromChat.
  rewrite (site_bind_done _ _ _ _ _ _ _ (lift_return _ _ _ _ _ _ Hrun)).
  cbn [negb].
  rewrite (site_bind_done _ _ _ _ _ _ _
             (lift_return _ _ _ _ _ _ (new_Date_eq env (after (isAdmin adminId) env w)))).
  rewrite (proj2 (proj2 (isAdmin_frame adminId env w))). reflexivity.
Qed.

(** X23. A ban is seen by the check: when an administrator bans a user who
    has a profile document and the store carries out the write, the
    profile gains [isBannedFromChat = true] and [bannedBy] = the
    administrator, keeps its other fields, and [isUserBannedFromChat]
    answers [true] for that user whenever its lookup succeeds. *)
Theorem banUserFromChat_then_banned b env w adminId userId profile :
  result (isAdmin adminId) env w = Return true ->
  firestore w !! (js "users", userId) = Some profile ->
  writeError b (tick (after (isAdmin adminId) env w)) = None ->
  outcome (banUserFromChat adminId userId) b env w = Done tt /\
  (exists banned,
     firestore (world_after (banUserFromChat adminId userId) b env w)
     = <[(js "users", userId) := banned]> (firestore w) /\
     banned !! js "isBannedFromChat" = Some (VBool true) /\
     banned !! js "bannedBy" = Some (VString adminId) /\
     forall name,
       name <> js "isBannedFromChat" -> name <> js "bannedAt" ->
       name <> js "bannedBy" -> banned !! name = profile !! name) /\
  forall env',
    lookupError env'
      (length (trace (world_after (banUserFromChat adminId userId) b env w))) = None ->
    result (isUserBannedFromChat userId) env'
      (world_after (banUserFromChat adminId userId) b env w) = Return true.
Proof.
  intros Hallowed Hprofile Hwrite.
  unfold outcome, world_after.
  rewrite (banUserFromChat_allowed_run b env w adminId userId Hallowed).
  rewrite updateDoc_run, Hwrite.
  change (firestore (tick (after (isAdmin adminId) env w)))
    with (firestore (after (isAdmin adminId) env w)).
  rewrite isAdmin_store, Hprofile. cbn [fst snd].
  split; [reflexivity |]. split.
  - eexists. split.
    + unfold with_firestore. cbn [firestore].
      change (firestore (tick (after (isAdmin adminId) env w)))
        with (firestore (after (isAdmin adminId) env w)).
      rewrite isAdmin_store. reflexivity.
    + split; [apply lookup_union_Some_l, lookup_insert_eq |].
      split.
      * apply lookup_union_Some_l.
        rewrite !lookup_insert_ne by distinct_names. apply lookup_singleton_eq.
      * intros name Hbanned Hat Hby. apply lookup_union_r.
        rewrite !lookup_insert_ne by congruence. apply lookup_singleton_ne. congruence.
  - intros env' Hlookup. unfold result. rewrite isUserBannedFromChat_eq, Hlookup.
    cbn [fst]. unfold with_firestore. cbn [firestore].
    rewrite lookup_insert_eq. unfold field.
    rewrite (lookup_union_Some_l _ _ _ _ (lookup_insert_eq _ _ _)). reflexivity.
Qed.

Lemma banUserFromChat_then_banned_witness :
  outcome (banUserFromChat (js "root") (js "u2")) plain_backend frozen_env site_world
  = Done tt /\
  (exists banned,
     firestore (world_after (banUserFromChat (js "root") (js "u2")) plain_backend
                  frozen_env site_world)
     = <[(js "users", js "u2") := banned]> (firestore site_world) /\
     banned !! js "isBannedFromChat" = Some (VBool true) /\
     banned !! js "bannedBy" = Some (VString (js "root")) /\
     forall name,
       name <> js "isBannedFromChat" -> name <> js "bannedAt" ->
       name <> js "bannedBy" ->
       banned !! name = ({[js "name" := VString (js "Sara")]} : DocumentData) !! name) /\
  forall env',
    lookupError env'
      (length (trace (world_after (banUserFromChat (js "root") (js "u2")) plain_backend
                        frozen_env site_world))) = None ->
    result (isUserBannedFromChat (js "u2")) env'
      (world_after (banUserFromChat (js "root") (js "u2")) plain_backend frozen_env
         site_world) = Return true.
Proof.
  apply (banUserFromChat_then_banned plain_backend frozen_env site_world
           (js "root") (js "u2") {[js "name" := VString (js "Sara")]}).
  - vm_compute. reflexivity.
  - vm_compute. reflexivity.
  - reflexivity.
Defined.

(** X24. A user without a profile document cannot be banned: whoever calls
    [banUserFromChat], it throws, the store stays as it was, and
    [isUserBannedFromChat] keeps answering [false] for that user. *)
Theorem banUserFromChat_without_profile b env w adminId userId :
  firestore w !! (js "users", userId) = None ->
  (exists e, outcome (banUserFromChat adminId userId) b env w = Thrown e) /\
  firestore (world_after (banUserFromChat adminId userId) b env w) = firestore w /\
  forall env',
    result (isUserBannedFromChat userId) env'
      (world_after (banUserFromChat adminId userId) b env w) = Return false.
Proof.
  intros Hmissing.
  assert (Hrun : (exists e, outcome (banUserFromChat adminId userId) b env w = Thrown e) /\
                 firestore (world_after (banUserFromChat adminId userId) b env w)
                 = firestore w).
  { destruct (isAdmin_returns adminId env w) as [[|] Hallowed].
    - unfold outcome, world_after.
      rewrite (banUserFromChat_allowed_run b env w adminId userId Hallowed), updateDoc_run.
      change (firestore (tick (after (isAdmin adminId) env w)))
        with (firestore (after (isAdmin adminId) env w)).
      rewrite isAdmin_store, Hmissing.
      destruct (writeError b _); cbn [fst snd];
        (split; [eexists; reflexivity | apply isAdmin_store]).
    - unfold outcome, world_after.
      rewrite (banUserFromChat_denied_run b env w adminId userId Hallowed).
      cbn [fst snd]. split; [eexists; reflexivity | apply isAdmin_store]. }
  destruct Hrun as [Hthrown Hstore]. split; [exact Hthrown |]. split; [exact Hstore |].
  intros env'. unfold result. rewrite isUserBannedFromChat_eq, Hstore, Hmissing.
  destruct (lookupError env' _); reflexivity.
Qed.

Lemma banUserFromChat_without_profile_witness :
  (exists e, outcome (banUserFromChat (js "root") (js "u1")) plain_backend frozen_env
               site_world = Thrown e) /\
  firestore (world_after (banUserFromChat (js "root") (js "u1")) plain_backend
               frozen_env site_world) = firestore site_world /\
  forall env',
    result (isUserBannedFromChat (js "u1")) env'
      (world_after (banUserFromChat (js "root") (js "u1")) plain_backend frozen_env
         site_world) = Return false.
Proof.
  apply (banUserFromChat_without_profile plain_backend frozen_env site_world
           (js "root") (js "u1")).
  vm_compute. reflexivity.
Defined.

(** ** Registration *)

Lemma registerUser_eq name email password b env w :
  registerUser name email password b env w =
  let identifier := js "client_" ++ toString36 (clock env (reads w)) in
  match isRateLimited identifier env (tick w) with
  | (Return true, w1) => (Thrown RegistrationLimited, w1)
  | (Return false, w1) =>
      register_after_throttle identifier name email password b env w1
  | (Throw e, w1) => (Thrown (Raised e), w1)
  end.
Proof.
  unfold registerUser, register_after_throttle.
  rewrite (site_bind_done _ _ _ _ _ _ _
             (lift_return _ b _ _ _ _ (getClientIdentifier_eq env w))).
  cbv zeta. unfold site_bind at 1, lift at 1.
  destruct (isRateLimited _ env (tick w)) as [[[|]|e] w1]; try reflexivity.
  destruct (negb (validateName name)); [reflexivity |].
  destruct (negb (validateEmail email)); [reflexivity |].
  destruct (negb (validatePassword password)); [reflexivity |].
  unfold site_try, site_bind at 1, createUserWithEmailAndPassword.
  destruct (accountReply b w1 email password) as [code|uid].
  - unfold site_bind, lift, site_throw, after, registration_error.
    rewrite recordLoginAttempt_eq.
    cbn [site_error_code error_code strict_eq_string snd].
    destruct (bool_decide _); reflexivity.
  - unfold site_bind at 1, lift at 1. rewrite new_Date_eq.
    unfold site_bind at 1, setDoc.
    destruct (writeError b (tick (with_user (Some uid) w1))) as [code|].
    + unfold site_bind, lift, site_throw, after, registration_error.
      rewrite recordLoginAttempt_eq.
      cbn [site_error_code error_code strict_eq_string snd].
      destruct (bool_decide _); reflexivity.
    + unfold site_bind, lift, site_ret, after, user_profile.
      rewrite recordLoginAttempt_eq. reflexivity.
Qed.

(** X25. A registration refused for the shape of its input stops before
    any account is created and before anything is recorded: the name is
    checked first, then the email, then the password, and the world is the
    one the throttle check left. *)
Theorem registerUser_invalid_input b env w identifier w1 name email password :
  throttle_check env w = (Return (identifier, false), w1) ->
  validateName name && validateEmail email && validatePassword password = false ->
  registerUser name email password b env w =
  (Thrown (if negb (validateName name) then InvalidName
           else if negb (validateEmail email) then Raised InvalidEmail
                else Raised InvalidPassword), w1).
Proof.
  intros Hcheck Hinvalid.
  destruct (throttle_check_inv _ _ _ _ _ Hcheck) as [Hid Hlim].
  assert (Hident : js "client_" ++ toString36 (clock env (reads w)) = identifier)
    by (apply getClientIdentifier_result; unfold result; rewrite Hid; reflexivity).
  rewrite registerUser_eq. cbv zeta. rewrite Hident, Hlim.
  unfold register_after_throttle.
  destruct (validateName name); [| reflexivity].
  destruct (validateEmail email); [| reflexivity].
  simpl in Hinvalid. rewrite Hinvalid. reflexivity.
Qed.

Lemma registerUser_invalid_input_witness :
  registerUser (js "R2D2") (js "a@b.com") (js "secret") plain_backend frozen_env
    fresh_world = (Thrown InvalidName, tick fresh_world) /\
  registerUser (js "Sara") (js "a@b.com") (js "12345") plain_backend frozen_env
    fresh_world = (Thrown (Raised InvalidPassword), tick fresh_world).
Proof.
  split.
  - apply (registerUser_invalid_input plain_backend frozen_env fresh_world
             (js "client_rs") (tick fresh_world) (js "R2D2") (js "a@b.com") (js "secret"));
      vm_compute; reflexivity.
  - apply (registerUser_invalid_input plain_backend frozen_env fresh_world
             (js "client_rs") (tick fresh_world) (js "Sara") (js "a@b.com") (js "12345"));
      vm_compute; reflexivity.
Defined.

(** X26. A registration that passes the throttle and the validators, whose
    account is created and whose profile write is carried out, returns the
    new user, leaves that user signed in, stores under [users] a profile
    with the sanitized (trimmed, then purified) name and email, the
    creation time and [isActive = true], and deletes the identifier's
    record. *)
Theorem registerUser_success b env w identifier w1 name email password uid :
  throttle_check env w = (Return (identifier, false), w1) ->
  validateName name && validateEmail email && validatePassword password = true ->
  accountReply b w1 email password = Credential uid ->
  writeError b (tick (with_user (Some uid) w1)) = None ->
  outcome (registerUser name email password) b env w = Done uid /\
  currentUser (world_after (registerUser name email password) b env w) = Some uid /\
  firestore (world_after (registerUser name email password) b env w)
  = <[(js "users", uid) :=
        user_profile b name email (VObject (Z.to_nat (clock env (reads w1))))]>
      (firestore w) /\
  loginAttempts (world_after (registerUser name email password) b env w)
  = delete identifier (loginAttempts w1).
Proof.
  intros Hcheck Hvalid Haccount Hwrite.
  destruct (throttle_check_inv _ _ _ _ _ Hcheck) as [Hid Hlim].
  destruct (throttle_check_frame _ _ _ _ _ Hcheck) as (Hstore & _ & _).
  assert (Hident : js "client_" ++ toString36 (clock env (reads w)) = identifier)
    by (apply getClientIdentifier_result; unfold result; rewrite Hid; reflexivity).
  apply andb_true_iff in Hvalid as [Hvalid Hpassword].
  apply andb_true_iff in Hvalid as [Hname Hemail].
  unfold outcome, world_after. rewrite registerUser_eq. cbv zeta. rewrite Hident, Hlim.
  unfold register_after_throttle.
  rewrite Hname, Hemail, Hpassword, Haccount. cbv zeta. rewrite Hwrite.
  unfold after. rewrite recordLoginAttempt_eq. simpl. rewrite Hstore.
  repeat split.
Qed.

Lemma registerUser_success_witness :
  outcome (registerUser (js "Sara") (js "a@b.com") (js "secret")) plain_backend
    frozen_env fresh_world = Done (js "u7") /\
  currentUser (world_after (registerUser (js "Sara") (js "a@b.com") (js "secret"))
                 plain_backend frozen_env fresh_world) = Some (js "u7") /\
  firestore (world_after (registerUser (js "Sara") (js "a@b.com") (js "secret"))
               plain_backend frozen_env fresh_world)
  = <[(js "users", js "u7") :=
        user_profile plain_backend (js "Sara") (js "a@b.com")
          (VObject (Z.to_nat (clock frozen_env (reads (tick fresh_world)))))]>
      (firestore fresh_world) /\
  loginAttempts (world_after (registerUser (js "Sara") (js "a@b.com") (js "secret"))
                   plain_backend frozen_env fresh_world)
  = delete (js "client_rs") (loginAttempts (tick fresh_world)).
Proof.
  apply (registerUser_success plain_backend frozen_env fresh_world (js "client_rs")
           (tick fresh_world) (js "Sara") (js "a@b.com") (js "secret") (js "u7")).
  - vm_compute. reflexivity.
  - vm_compute. reflexivity.
  - reflexivity.
  - reflexivity.
Defined.

(** X27. When the account is created but the profile write is rejected,
    [registerUser] reports a failed registration and records a failure,
    yet the account exists: its user is left signed in, and there is no
    profile document for it unless there was one before. *)
Theorem registerUser_account_without_profile b env w identifier w1 name email password
    uid code :
  throttle_check env w = (Return (identifier, false), w1) ->
  validateName name && validateEmail email && validatePassword password = true ->
  accountReply b w1 email password = Credential uid ->
  writeError b (tick (with_user (Some uid) w1)) = Some code ->
  outcome (registerUser name email password) b env w = Thrown (registration_error code) /\
  currentUser (world_after (registerUser name email password) b env w) = Some uid /\
  firestore (world_after (registerUser name email password) b env w) = firestore w /\
  failureCount (world_after (registerUser name email password) b env w) identifier
  = (failureCount w1 identifier + 1)%N.
Proof.
  intros Hcheck Hvalid Haccount Hwrite.
  destruct (throttle_check_inv _ _ _ _ _ Hcheck) as [Hid Hlim].
  destruct (throttle_check_frame _ _ _ _ _ Hcheck) as (Hstore & _ & _).
  assert (Hident : js "client_" ++ toString36 (clock env (reads w)) = identifier)
    by (apply getClientIdentifier_result; unfold result; rewrite Hid; reflexivity).
  apply andb_true_iff in Hvalid as [Hvalid Hpassword].
  apply andb_true_iff in Hvalid as [Hname Hemail].
  unfold outcome, world_after. rewrite registerUser_eq. cbv zeta. rewrite Hident, Hlim.
  unfold register_after_throttle.
  rewrite Hname, Hemail, Hpassword, Haccount. cbv zeta. rewrite Hwrite.
  unfold after. rewrite recordLoginAttempt_eq. unfold failureCount. simpl.
  rewrite Hstore, lookup_insert_eq. repeat split.
Qed.

Lemma registerUser_account_without_profile_witness :
  outcome (registerUser (js "Sara") (js "a@b.com") (js "secret")) half_backend
    frozen_env fresh_world = Thrown (registration_error (js "permission-denied")) /\
  currentUser (world_after (registerUser (js "Sara") (js "a@b.com") (js "secret"))
                 half_backend frozen_env fresh_world) = Some (js "u7") /\
  firestore (world_after (registerUser (js "Sara") (js "a@b.com") (js "secret"))
               half_backend frozen_env fresh_world) = firestore fresh_world /\
  failureCount (world_after (registerUser (js "Sara") (js "a@b.com") (js "secret"))
                  half_backend frozen_env fresh_world) (js "client_rs")
  = (failureCount (tick fresh_world) (js "client_rs") + 1)%N.
Proof.
  apply (registerUser_account_without_profile half_backend frozen_env fresh_world
           (js "client_rs") (tick fresh_world) (js "Sara") (js "a@b.com") (js "secret")
           (js "u7") (js "permission-denied")).
  - vm_compute. reflexivity.
  - vm_compute. reflexivity.
  - reflexivity.
  - reflexivity.
Defined.

(** X28. Whatever the services answer, [registerUser] either returns the new
    user or throws one of its six errors; a rejection by the identity
    provider or by the store, other than its being turned into "email in
    use", never reaches the caller with its code. *)
Theorem registerUser_errors b env w name email password :
  (exists uid, outcome (registerUser name email password) b env w = Done uid) \/
  outcome (registerUser name email password) b env w = Thrown RegistrationLimited \/
  outcome (registerUser name email password) b env w = Thrown InvalidName \/
  outcome (registerUser name email password) b env w = Thrown (Raised InvalidEmail) \/
  outcome (registerUser name email password) b env w = Thrown (Raised InvalidPassword) \/
  outcome (registerUser name email password) b env w = Thrown EmailInUse \/
  outcome (registerUser name email password) b env w = Thrown RegistrationFailed.
Proof.
  unfold outcome. rewrite registerUser_eq. cbv zeta.
  set (identifier := js "client_" ++ toString36 (clock env (reads w))).
  destruct (isRateLimited_returns identifier env (tick w)) as [limited ->].
  destruct limited; [auto |].
  unfold register_after_throttle.
  destruct (negb (validateName name)); [auto |].
  destruct (negb (validateEmail email)); [auto 6 |].
  destruct (negb (validatePassword password)); [auto 6 |].
  assert (Hcode : forall code,
            registration_error code = EmailInUse \/
            registration_error code = RegistrationFailed)
    by (intros code; unfold registration_error; destruct (bool_decide _); auto).
  destruct (accountReply b _ email password) as [code|uid].
  - cbn [fst]. destruct (Hcode code) as [-> | ->]; auto 8.
  - cbv zeta. destruct (writeError b _) as [code|]; cbn [fst].
    + destruct (Hcode code) as [-> | ->]; auto 8.
    + left. eexists. reflexivity.
Qed.

(** ** Google sign-in *)

Lemma signInWithGoogle_eq b env w :
  signInWithGoogle b env w =
  match popupReply b w with
  | PopupRejected _ => (Thrown GoogleSignInFailed, w)
  | PopupUser user =>
      let w1 := with_user (Some (google_uid user)) w in
      let w2 := log (GetDoc (js "users") (google_uid user)) w1 in
      match lookupError env (length (trace w)) with
      | Some _ => (Thrown GoogleSignInFailed, w2)
      | None =>
          match firestore w !! (js "users", google_uid user) with
          | Some _ => (Done user, w2)
          | None =>
              match writeError b (tick w2) with
              | Some _ => (Thrown GoogleSignInFailed, tick w2)
              | None =>
                  (Done user,
                   with_firestore
                     (insert (js "users", google_uid user)
                        (user_profile b (or_else (displayName user) default_display_name)
                           (or_else (google_email user) [])
                           (VObject (Z.to_nat (clock env (reads w))))))
                     (tick w2))
              end
          end
      end
  end.
Proof.
  unfold signInWithGoogle, site_try, site_bind at 1, signInWithPopup.
  destruct (popupReply b w) as [code|user]; [reflexivity |].
  cbv zeta. unfold site_bind at 1, site_bind at 1, lift at 1, getDoc.
  change (trace (with_user (Some (google_uid user)) w)) with (trace w).
  change (firestore (with_user (Some (google_uid user)) w)) with (firestore w).
  destruct (lookupError env (length (trace w))); [reflexivity |].
  destruct (firestore w !! (js "users", google_uid user)); [reflexivity |].
  unfold site_bind, lift, setDoc, site_ret. rewrite new_Date_eq.
  destruct (writeError b _); reflexivity.
Qed.

(** X29. A Google sign-in never overwrites a profile: when the user who
    signs in has a profile document, the store is left as it was, whatever
    else happens, and the call returns that user when its lookup
    succeeds. *)
Theorem signInWithGoogle_keeps_profile b env w user profile :
  popupReply b w = PopupUser user ->
  firestore w !! (js "users", google_uid user) = Some profile ->
  firestore (world_after signInWithGoogle b env w) = firestore w /\
  currentUser (world_after signInWithGoogle b env w) = Some (google_uid user) /\
  (lookupError env (length (trace w)) = None ->
   outcome signInWithGoogle b env w = Done user).
Proof.
  intros Hpopup Hprofile. unfold world_after, outcome.
  rewrite signInWithGoogle_eq, Hpopup, Hprofile. cbv zeta.
  destruct (lookupError env (length (trace w))); repeat split; discriminate.
Qed.

Lemma signInWithGoogle_keeps_profile_witness :
  firestore (world_after signInWithGoogle half_backend frozen_env site_world)
  = firestore site_world /\
  currentUser (world_after signInWithGoogle half_backend frozen_env site_world)
  = Some (js "u2") /\
  (lookupError frozen_env (length (trace site_world)) = None ->
   outcome signInWithGoogle half_backend frozen_env site_world
   = Done {| google_uid := js "u2"; displayName := None;
             google_email := Some (js "sara@example.com") |}).
Proof.
  apply (signInWithGoogle_keeps_profile half_backend frozen_env site_world
           {| google_uid := js "u2"; displayName := None;
              google_email := Some (js "sara@example.com") |}
           {[js "name" := VString (js "Sara")]}).
  - reflexivity.
  - vm_compute. reflexivity.
Defined.

(** X30. [signInWithGoogle] throws nothing but its own error; when it
    returns, what it returns is the user of the pop-up, and that user has a
    profile document: the one there was, or a new one whose name is the
    sanitized display name, or the default name when the display name is
    missing or empty. When the pop-up succeeded and a later step failed,
    the error is thrown with the user left signed in. *)
Theorem signInWithGoogle_outcomes b env w :
  (outcome signInWithGoogle b env w = Thrown GoogleSignInFailed \/
   exists user,
     outcome signInWithGoogle b env w = Done user /\
     popupReply b w = PopupUser user /\
     (firestore (world_after signInWithGoogle b env w) !! (js "users", google_uid user)
      = firestore w !! (js "users", google_uid user)
      \/ firestore (world_after signInWithGoogle b env w) !! (js "users", google_uid user)
         = Some (user_profile b (or_else (displayName user) default_display_name)
                   (or_else (google_email user) [])
                   (VObject (Z.to_nat (clock env (reads w))))))
     /\ is_Some (firestore (world_after signInWithGoogle b env w)
                 !! (js "users", google_uid user))) /\
  (forall user,
     popupReply b w = PopupUser user ->
     currentUser (world_after signInWithGoogle b env w) = Some (google_uid user)).
Proof.
  unfold outcome, world_after. rewrite signInWithGoogle_eq. split.
  - destruct (popupReply b w) as [code|user]; [left; reflexivity |].
    cbv zeta.
    destruct (lookupError env (length (trace w))); [left; reflexivity |].
    destruct (firestore w !! (js "users", google_uid user)) as [profile|] eqn:Hprofile.
    + right. exists user. cbn [fst snd].
      change (firestore (log _ (with_user _ w))) with (firestore w).
      rewrite Hprofile. repeat split; eauto.
    + destruct (writeError b _); [left; reflexivity |].
      right. exists user. cbn [fst snd]. unfold with_firestore. cbn [firestore].
      rewrite lookup_insert_eq. repeat split; eauto.
  - intros user Hpopup. rewrite Hpopup. cbv zeta.
    destruct (lookupError env (length (trace w))); [reflexivity |].
    destruct (firestore w !! (js "users", google_uid user)); [reflexivity |].
    destruct (writeError b _); reflexivity.
Qed.

Lemma signInWithGoogle_outcomes_witness :
  currentUser (world_after signInWithGoogle google_backend offline_env site_world)
  = Some (js "u9") /\
  firestore (world_after signInWithGoogle google_backend frozen_env site_world)
    !! (js "users", js "u9")
  = Some (user_profile google_backend default_display_name []
            (VObject (Z.to_nat (clock frozen_env (reads site_world))))).
Proof.
  split.
  - apply (proj2 (signInWithGoogle_outcomes google_backend offline_env site_world)
             {| google_uid := js "u9"; displayName := Some []; google_email := None |}).
    reflexivity.
  - vm_compute. reflexivity.
Defined.
